(** * A byte-by-byte MIDI 1.0 parser: shallow embedding and properties

    The development embeds [src/midi/midi.h] and [src/midi/midi.c]:
    the parser state, the output message, and the three functions
    [midi_parse_byte], [parse_status_byte] and [parse_data_byte],
    and proves the properties of the decoding state machine.

    Conventions of the embedding.
    - [uint8_t], [uint16_t] and the three C enumerations are numbers of
      type [N]; an enumeration constant is the number the header gives
      it, because the code converts freely between bytes and
      enumeration values ([(midi_message_type_t)byte] and the like).
      Where C arithmetic could leave the range of its type the
      wrap-around is written out ([mod 256], [mod 65536]).
    - The two out-parameters [parser] and [message] are threaded
      through a state monad; a buffer access outside [buffer[0..1]]
      (undefined behaviour in C) is the failure [None] of that monad.
    - The functions are modelled for non-NULL pointers: a call with a
      NULL pointer returns [MIDI_MESSAGE_NONE] before touching anything.
    - The anonymous union of [midi_message_t] is modelled by one field
      per member.  The code only ever reads a member it has written in
      the same call ([velocity], [controller]), and members of one
      anonymous struct never overlap, so every value the code computes
      is the one a C implementation computes; the model says nothing
      about reading a member through another one. *)

From Stdlib Require Import NArith List Bool Lia.
Import ListNotations.
Local Open Scope N_scope.

(** ** Constants of [midi.c] *)

Definition MIDI_MSN_MASK : N := 0xF0.
Definition MIDI_LSN_MASK : N := 0x0F.
Definition MIDI_CHANNEL_MASK : N := 0x0F.
Definition MIDI_MSB_MASK : N := 0x80.
Definition MIDI_BUFFER_SIZE : N := 2.
Definition MIDI_MAX_DATA_BYTE : N := 0x7F.

(** ** Enumerations of [midi.h] *)

(** [midi_channel_t]: channels 1..16 are the numbers 0..15. *)
Definition MIDI_CHANNEL_NONE : N := 0xFF.

(** [midi_message_type_t] *)
Definition MIDI_MESSAGE_NONE : N := 0x00.
Definition MIDI_MESSAGE_NOTE_OFF : N := 0x80.
Definition MIDI_MESSAGE_NOTE_ON : N := 0x90.
Definition MIDI_MESSAGE_KEY_PRESSURE : N := 0xA0.
Definition MIDI_MESSAGE_CONTROL_CHANGE : N := 0xB0.
Definition MIDI_MESSAGE_ALL_SOUND_OFF : N := 0x78.
Definition MIDI_MESSAGE_RESET_ALL_CONTROLLERS : N := 0x79.
Definition MIDI_MESSAGE_LOCAL_CONTROL : N := 0x7A.
Definition MIDI_MESSAGE_ALL_NOTES_OFF : N := 0x7B.
Definition MIDI_MESSAGE_OMNI_OFF : N := 0x7C.
Definition MIDI_MESSAGE_OMNI_ON : N := 0x7D.
Definition MIDI_MESSAGE_MONO_ON : N := 0x7E.
Definition MIDI_MESSAGE_POLY_ON : N := 0x7F.
Definition MIDI_MESSAGE_PROGRAM_CHANGE : N := 0xC0.
Definition MIDI_MESSAGE_CHANNEL_PRESSURE : N := 0xD0.
Definition MIDI_MESSAGE_PITCH_BEND : N := 0xE0.
Definition MIDI_MESSAGE_SYSTEM_EXCLUSIVE : N := 0xF0.
Definition MIDI_MESSAGE_MTC_QUARTER_FRAME : N := 0xF1.
Definition MIDI_MESSAGE_SONG_POSITION_POINTER : N := 0xF2.
Definition MIDI_MESSAGE_SONG_SELECT : N := 0xF3.
Definition MIDI_MESSAGE_TUNE_REQUEST : N := 0xF6.
Definition MIDI_MESSAGE_END_OF_EXCLUSIVE : N := 0xF7.
Definition MIDI_MESSAGE_TIMING_CLOCK : N := 0xF8.
Definition MIDI_MESSAGE_START : N := 0xFA.
Definition MIDI_MESSAGE_CONTINUE : N := 0xFB.
Definition MIDI_MESSAGE_STOP : N := 0xFC.
Definition MIDI_MESSAGE_ACTIVE_SENSE : N := 0xFE.
Definition MIDI_MESSAGE_SYSTEM_RESET : N := 0xFF.

(** [midi_controller_t]: the eight controllers tested by the parser. *)
Definition MIDI_CC_ALL_SOUND_OFF : N := 0x78.
Definition MIDI_CC_RESET_ALL_CONTROLLERS : N := 0x79.
Definition MIDI_CC_LOCAL_CONTROL : N := 0x7A.
Definition MIDI_CC_ALL_NOTES_OFF : N := 0x7B.
Definition MIDI_CC_OMNI_OFF : N := 0x7C.
Definition MIDI_CC_OMNI_ON : N := 0x7D.
Definition MIDI_CC_MONO_ON : N := 0x7E.
Definition MIDI_CC_POLY_ON : N := 0x7F.

(** ** Structures of [midi.h] *)

(** [midi_message_t]; the first two fields are [message_type] and
    [channel], the others are the members of the anonymous union. *)
Record midi_message_t := mk_message {
  m_message_type : N;
  m_channel : N;
  note : N;
  velocity : N;
  key : N;
  key_pressure : N;
  controller : N;
  control_value : N;
  program : N;
  channel_pressure : N;
  pitch_bend : N;
  song_position : N;
  song_select : N;
  mtc_msg_type : N;
  mtc_values : N
}.

(** [midi_parser_t]; [buffer[0]] and [buffer[1]] are [p_buffer0] and
    [p_buffer1]. *)
Record midi_parser_t := mk_parser {
  p_message_type : N;
  p_channel : N;
  p_active_channel : N;
  p_buffer0 : N;
  p_buffer1 : N;
  p_byte_count : N
}.

(** Field assignments. *)

Definition set_p_message_type (v : N) (p : midi_parser_t) : midi_parser_t :=
  mk_parser v (p_channel p) (p_active_channel p) (p_buffer0 p) (p_buffer1 p)
    (p_byte_count p).
Definition set_p_channel (v : N) (p : midi_parser_t) : midi_parser_t :=
  mk_parser (p_message_type p) v (p_active_channel p) (p_buffer0 p)
    (p_buffer1 p) (p_byte_count p).
Definition set_p_active_channel (v : N) (p : midi_parser_t) : midi_parser_t :=
  mk_parser (p_message_type p) (p_channel p) v (p_buffer0 p) (p_buffer1 p)
    (p_byte_count p).
Definition set_p_buffer0 (v : N) (p : midi_parser_t) : midi_parser_t :=
  mk_parser (p_message_type p) (p_channel p) (p_active_channel p) v
    (p_buffer1 p) (p_byte_count p).
Definition set_p_buffer1 (v : N) (p : midi_parser_t) : midi_parser_t :=
  mk_parser (p_message_type p) (p_channel p) (p_active_channel p)
    (p_buffer0 p) v (p_byte_count p).
Definition set_p_byte_count (v : N) (p : midi_parser_t) : midi_parser_t :=
  mk_parser (p_message_type p) (p_channel p) (p_active_channel p)
    (p_buffer0 p) (p_buffer1 p) v.

Definition set_m_message_type (v : N) (m : midi_message_t) : midi_message_t :=
  mk_message v (m_channel m) (note m) (velocity m) (key m) (key_pressure m)
    (controller m) (control_value m) (program m) (channel_pressure m)
    (pitch_bend m) (song_position m) (song_select m) (mtc_msg_type m)
    (mtc_values m).
Definition set_m_channel (v : N) (m : midi_message_t) : midi_message_t :=
  mk_message (m_message_type m) v (note m) (velocity m) (key m)
    (key_pressure m) (controller m) (control_value m) (program m)
    (channel_pressure m) (pitch_bend m) (song_position m) (song_select m)
    (mtc_msg_type m) (mtc_values m).
Definition set_note (v : N) (m : midi_message_t) : midi_message_t :=
  mk_message (m_message_type m) (m_channel m) v (velocity m) (key m)
    (key_pressure m) (controller m) (control_value m) (program m)
    (channel_pressure m) (pitch_bend m) (song_position m) (song_select m)
    (mtc_msg_type m) (mtc_values m).
Definition set_velocity (v : N) (m : midi_message_t) : midi_message_t :=
  mk_message (m_message_type m) (m_channel m) (note m) v (key m)
    (key_pressure m) (controller m) (control_value m) (program m)
    (channel_pressure m) (pitch_bend m) (song_position m) (song_select m)
    (mtc_msg_type m) (mtc_values m).
Definition set_key (v : N) (m : midi_message_t) : midi_message_t :=
  mk_message (m_message_type m) (m_channel m) (note m) (velocity m) v
    (key_pressure m) (controller m) (control_value m) (program m)
    (channel_pressure m) (pitch_bend m) (song_position m) (song_select m)
    (mtc_msg_type m) (mtc_values m).
Definition set_key_pressure (v : N) (m : midi_message_t) : midi_message_t :=
  mk_message (m_message_type m) (m_channel m) (note m) (velocity m) (key m)
    v (controller m) (control_value m) (program m) (channel_pressure m)
    (pitch_bend m) (song_position m) (song_select m) (mtc_msg_type m)
    (mtc_values m).
Definition set_controller (v : N) (m : midi_message_t) : midi_message_t :=
  mk_message (m_message_type m) (m_channel m) (note m) (velocity m) (key m)
    (key_pressure m) v (control_value m) (program m) (channel_pressure m)
    (pitch_bend m) (song_position m) (song_select m) (mtc_msg_type m)
    (mtc_values m).
Definition set_control_value (v : N) (m : midi_message_t) : midi_message_t :=
  mk_message (m_message_type m) (m_channel m) (note m) (velocity m) (key m)
    (key_pressure m) (controller m) v (program m) (channel_pressure m)
    (pitch_bend m) (song_position m) (song_select m) (mtc_msg_type m)
    (mtc_values m).
Definition set_program (v : N) (m : midi_message_t) : midi_message_t :=
  mk_message (m_message_type m) (m_channel m) (note m) (velocity m) (key m)
    (key_pressure m) (controller m) (control_value m) v (channel_pressure m)
    (pitch_bend m) (song_position m) (song_select m) (mtc_msg_type m)
    (mtc_values m).
Definition set_channel_pressure (v : N) (m : midi_message_t) : midi_message_t :=
  mk_message (m_message_type m) (m_channel m) (note m) (velocity m) (key m)
    (key_pressure m) (controller m) (control_value m) (program m) v
    (pitch_bend m) (song_position m) (song_select m) (mtc_msg_type m)
    (mtc_values m).
Definition set_pitch_bend (v : N) (m : midi_message_t) : midi_message_t :=
  mk_message (m_message_type m) (m_channel m) (note m) (velocity m) (key m)
    (key_pressure m) (controller m) (control_value m) (program m)
    (channel_pressure m) v (song_position m) (song_select m) (mtc_msg_type m)
    (mtc_values m).
Definition set_song_position (v : N) (m : midi_message_t) : midi_message_t :=
  mk_message (m_message_type m) (m_channel m) (note m) (velocity m) (key m)
    (key_pressure m) (controller m) (control_value m) (program m)
    (channel_pressure m) (pitch_bend m) v (song_select m) (mtc_msg_type m)
    (mtc_values m).
Definition set_song_select (v : N) (m : midi_message_t) : midi_message_t :=
  mk_message (m_message_type m) (m_channel m) (note m) (velocity m) (key m)
    (key_pressure m) (controller m) (control_value m) (program m)
    (channel_pressure m) (pitch_bend m) (song_position m) v (mtc_msg_type m)
    (mtc_values m).
Definition set_mtc_msg_type (v : N) (m : midi_message_t) : midi_message_t :=
  mk_message (m_message_type m) (m_channel m) (note m) (velocity m) (key m)
    (key_pressure m) (controller m) (control_value m) (program m)
    (channel_pressure m) (pitch_bend m) (song_position m) (song_select m) v
    (mtc_values m).
Definition set_mtc_values (v : N) (m : midi_message_t) : midi_message_t :=
  mk_message (m_message_type m) (m_channel m) (note m) (velocity m) (key m)
    (key_pressure m) (controller m) (control_value m) (program m)
    (channel_pressure m) (pitch_bend m) (song_position m) (song_select m)
    (mtc_msg_type m) v.

(** ** The monad of a call: two objects behind pointers, and failure *)

Module Exec.

(** A computation reads and writes the parser and the message the
    caller passed, and either returns a value or is undefined. *)
Definition exec (A : Type) : Type :=
  midi_parser_t -> midi_message_t ->
  option (A * midi_parser_t * midi_message_t).

Definition ret {A : Type} (a : A) : exec A :=
  fun p m => Some (a, p, m).

Definition bind {A B : Type} (c : exec A) (k : A -> exec B) : exec B :=
  fun p m =>
    match c p m with
    | Some (a, p', m') => k a p' m'
    | None => None
    end.

(** Undefined behaviour. *)
Definition undefined {A : Type} : exec A := fun _ _ => None.

(** [parser->f] *)
Definition parser_field {A : Type} (f : midi_parser_t -> A) : exec A :=
  fun p m => Some (f p, p, m).

(** [parser->f = v], for a setter [set] of the field [f] *)
Definition parser_assign (set : midi_parser_t -> midi_parser_t) : exec unit :=
  fun p m => Some (tt, set p, m).

(** [message->f] *)
Definition message_field {A : Type} (f : midi_message_t -> A) : exec A :=
  fun p m => Some (f m, p, m).

(** [message->f = v] *)
Definition message_assign (set : midi_message_t -> midi_message_t)
  : exec unit :=
  fun p m => Some (tt, p, set m).

(** [parser->buffer[i]], defined for [i < MIDI_BUFFER_SIZE] only. *)
Definition buffer_load (i : N) : exec N :=
  if i =? 0 then parser_field p_buffer0
  else if i =? 1 then parser_field p_buffer1
  else undefined.

(** [parser->buffer[i] = v], defined for [i < MIDI_BUFFER_SIZE] only. *)
Definition buffer_store (i v : N) : exec unit :=
  if i =? 0 then parser_assign (set_p_buffer0 v)
  else if i =? 1 then parser_assign (set_p_buffer1 v)
  else undefined.

End Exec.
Import Exec.

Declare Scope exec_scope.
Delimit Scope exec_scope with exec.
Notation "x <- c ;; k" := (bind c (fun x => k))
  (at level 61, c at next level, right associativity) : exec_scope.
Notation "c ;; k" := (bind c (fun _ => k))
  (at level 61, right associativity) : exec_scope.
Local Open Scope exec_scope.

(** [switch] labels: [one_of x [a; b; c]] is [case a: case b: case c:]. *)
Definition one_of (x : N) (labels : list N) : bool :=
  existsb (N.eqb x) labels.

(** ** [midi_parser_init] and [midi_parser_reset] *)

Definition midi_parser_init (parser : midi_parser_t) : midi_parser_t :=
  let parser := set_p_message_type MIDI_MESSAGE_NONE parser in
  let parser := set_p_channel MIDI_CHANNEL_NONE parser in
  let parser := set_p_active_channel MIDI_CHANNEL_NONE parser in
  let parser := set_p_buffer0 0 parser in
  let parser := set_p_buffer1 0 parser in
  set_p_byte_count 0 parser.

Definition midi_parser_reset (parser : midi_parser_t) : midi_parser_t :=
  midi_parser_init parser.

(** ** [parse_status_byte] *)

Definition parse_status_byte (byte : N) : exec N :=
  let selector := N.land byte MIDI_MSN_MASK in
  if one_of selector
       [MIDI_MESSAGE_NOTE_OFF; MIDI_MESSAGE_NOTE_ON;
        MIDI_MESSAGE_KEY_PRESSURE; MIDI_MESSAGE_CONTROL_CHANGE;
        MIDI_MESSAGE_PROGRAM_CHANGE; MIDI_MESSAGE_CHANNEL_PRESSURE;
        MIDI_MESSAGE_PITCH_BEND]
  then
    (* channel voice messages *)
    parser_assign (set_p_message_type (N.land byte MIDI_MSN_MASK)) ;;
    parser_assign (set_p_channel (N.land byte MIDI_CHANNEL_MASK)) ;;
    parser_assign (set_p_byte_count 0) ;;
    ret MIDI_MESSAGE_NONE
  else if one_of selector [MIDI_MESSAGE_SYSTEM_EXCLUSIVE] then
    (* system messages, matched on the full byte *)
    if one_of byte [MIDI_MESSAGE_SYSTEM_EXCLUSIVE] then
      parser_assign (set_p_message_type MIDI_MESSAGE_SYSTEM_EXCLUSIVE) ;;
      parser_assign (set_p_byte_count 0) ;;
      message_assign (set_m_message_type MIDI_MESSAGE_SYSTEM_EXCLUSIVE) ;;
      message_assign (set_m_channel MIDI_CHANNEL_NONE) ;;
      ret MIDI_MESSAGE_SYSTEM_EXCLUSIVE
    else if one_of byte
              [MIDI_MESSAGE_MTC_QUARTER_FRAME;
               MIDI_MESSAGE_SONG_POSITION_POINTER; MIDI_MESSAGE_SONG_SELECT]
    then
      parser_assign (set_p_message_type byte) ;;
      parser_assign (set_p_channel MIDI_CHANNEL_NONE) ;;
      parser_assign (set_p_byte_count 0) ;;
      ret MIDI_MESSAGE_NONE
    else if one_of byte
              [MIDI_MESSAGE_TUNE_REQUEST; MIDI_MESSAGE_END_OF_EXCLUSIVE]
    then
      parser_assign (set_p_message_type MIDI_MESSAGE_NONE) ;;
      parser_assign (set_p_channel MIDI_CHANNEL_NONE) ;;
      parser_assign (set_p_byte_count 0) ;;
      message_assign (set_m_message_type byte) ;;
      message_assign (set_m_channel MIDI_CHANNEL_NONE) ;;
      message_field m_message_type
    else if one_of byte
              [MIDI_MESSAGE_TIMING_CLOCK; MIDI_MESSAGE_START;
               MIDI_MESSAGE_CONTINUE; MIDI_MESSAGE_STOP;
               MIDI_MESSAGE_ACTIVE_SENSE; MIDI_MESSAGE_SYSTEM_RESET]
    then
      (* system real-time: running status is not cleared *)
      message_assign (set_m_message_type byte) ;;
      message_assign (set_m_channel MIDI_CHANNEL_NONE) ;;
      message_field m_message_type
    else
      (* undefined system message type *)
      ret MIDI_MESSAGE_NONE
  else
    (* undefined message type *)
    ret MIDI_MESSAGE_NONE.

(** ** [parse_data_byte] *)

(** [parser->buffer[parser->byte_count++] = byte;] with the increment
    in [uint8_t]. *)
Definition accumulate (byte : N) : exec unit :=
  index <- parser_field p_byte_count ;;
  parser_assign (set_p_byte_count ((index + 1) mod 256)) ;;
  buffer_store index byte.

(** [parser->buffer[1] << 7 | parser->buffer[0]], stored in a
    [uint16_t]. *)
Definition combine_14bit : exec N :=
  high <- buffer_load 1 ;;
  low <- buffer_load 0 ;;
  ret (N.lor (N.shiftl high 7) low mod 65536).

Definition parse_data_byte (byte : N) : exec N :=
  (* validate data byte range *)
  if MIDI_MAX_DATA_BYTE <? byte then ret MIDI_MESSAGE_NONE else
  (* buffer overflow protection *)
  count <- parser_field p_byte_count ;;
  if MIDI_BUFFER_SIZE <=? count then
    parser_assign (set_p_byte_count 0) ;;
    ret MIDI_MESSAGE_NONE
  else
  pending <- parser_field p_message_type ;;
  if one_of pending [MIDI_MESSAGE_NOTE_OFF] then
    accumulate byte ;;
    count <- parser_field p_byte_count ;;
    if negb (count =? 2) then ret MIDI_MESSAGE_NONE else
    message_assign (set_m_message_type MIDI_MESSAGE_NOTE_OFF) ;;
    channel <- parser_field p_channel ;;
    message_assign (set_m_channel channel) ;;
    b0 <- buffer_load 0 ;;
    message_assign (set_note b0) ;;
    b1 <- buffer_load 1 ;;
    message_assign (set_velocity b1) ;;
    parser_assign (set_p_byte_count 0) ;;
    ret MIDI_MESSAGE_NOTE_OFF
  else if one_of pending [MIDI_MESSAGE_NOTE_ON] then
    accumulate byte ;;
    count <- parser_field p_byte_count ;;
    if negb (count =? 2) then ret MIDI_MESSAGE_NONE else
    channel <- parser_field p_channel ;;
    message_assign (set_m_channel channel) ;;
    b0 <- buffer_load 0 ;;
    message_assign (set_note b0) ;;
    b1 <- buffer_load 1 ;;
    message_assign (set_velocity b1) ;;
    v <- message_field velocity ;;
    (if v =? 0
     then
       (* note on with velocity 0 is equivalent to note off *)
       message_assign (set_m_message_type MIDI_MESSAGE_NOTE_OFF)
     else message_assign (set_m_message_type MIDI_MESSAGE_NOTE_ON)) ;;
    parser_assign (set_p_byte_count 0) ;;
    message_field m_message_type
  else if one_of pending [MIDI_MESSAGE_KEY_PRESSURE] then
    accumulate byte ;;
    count <- parser_field p_byte_count ;;
    if negb (count =? 2) then ret MIDI_MESSAGE_NONE else
    message_assign (set_m_message_type MIDI_MESSAGE_KEY_PRESSURE) ;;
    channel <- parser_field p_channel ;;
    message_assign (set_m_channel channel) ;;
    b0 <- buffer_load 0 ;;
    message_assign (set_key b0) ;;
    b1 <- buffer_load 1 ;;
    message_assign (set_key_pressure b1) ;;
    parser_assign (set_p_byte_count 0) ;;
    ret MIDI_MESSAGE_KEY_PRESSURE
  else if one_of pending [MIDI_MESSAGE_CONTROL_CHANGE] then
    accumulate byte ;;
    count <- parser_field p_byte_count ;;
    if negb (count =? 2) then ret MIDI_MESSAGE_NONE else
    message_assign (set_m_message_type MIDI_MESSAGE_CONTROL_CHANGE) ;;
    channel <- parser_field p_channel ;;
    message_assign (set_m_channel channel) ;;
    b0 <- buffer_load 0 ;;
    message_assign (set_controller b0) ;;
    b1 <- buffer_load 1 ;;
    message_assign (set_control_value b1) ;;
    parser_assign (set_p_byte_count 0) ;;
    c <- message_field controller ;;
    (if one_of c
          [MIDI_CC_ALL_SOUND_OFF; MIDI_CC_RESET_ALL_CONTROLLERS;
           MIDI_CC_LOCAL_CONTROL; MIDI_CC_ALL_NOTES_OFF; MIDI_CC_OMNI_OFF;
           MIDI_CC_OMNI_ON; MIDI_CC_MONO_ON; MIDI_CC_POLY_ON]
     then
       c <- message_field controller ;;
       message_assign (set_m_message_type c)
     else ret tt) ;;
    message_field m_message_type
  else if one_of pending [MIDI_MESSAGE_PROGRAM_CHANGE] then
    message_assign (set_m_message_type MIDI_MESSAGE_PROGRAM_CHANGE) ;;
    channel <- parser_field p_channel ;;
    message_assign (set_m_channel channel) ;;
    message_assign (set_program byte) ;;
    parser_assign (set_p_byte_count 0) ;;
    ret MIDI_MESSAGE_PROGRAM_CHANGE
  else if one_of pending [MIDI_MESSAGE_CHANNEL_PRESSURE] then
    message_assign (set_m_message_type MIDI_MESSAGE_CHANNEL_PRESSURE) ;;
    channel <- parser_field p_channel ;;
    message_assign (set_m_channel channel) ;;
    message_assign (set_channel_pressure byte) ;;
    parser_assign (set_p_byte_count 0) ;;
    ret MIDI_MESSAGE_CHANNEL_PRESSURE
  else if one_of pending [MIDI_MESSAGE_PITCH_BEND] then
    accumulate byte ;;
    count <- parser_field p_byte_count ;;
    if negb (count =? 2) then ret MIDI_MESSAGE_NONE else
    message_assign (set_m_message_type MIDI_MESSAGE_PITCH_BEND) ;;
    channel <- parser_field p_channel ;;
    message_assign (set_m_channel channel) ;;
    value <- combine_14bit ;;
    message_assign (set_pitch_bend value) ;;
    parser_assign (set_p_byte_count 0) ;;
    ret MIDI_MESSAGE_PITCH_BEND
  else if one_of pending [MIDI_MESSAGE_SYSTEM_EXCLUSIVE] then
    (* just ignore the data byte *)
    ret MIDI_MESSAGE_NONE
  else if one_of pending [MIDI_MESSAGE_MTC_QUARTER_FRAME] then
    parser_assign (set_p_message_type MIDI_MESSAGE_NONE) ;;
    parser_assign (set_p_byte_count 0) ;;
    message_assign (set_m_message_type MIDI_MESSAGE_MTC_QUARTER_FRAME) ;;
    message_assign (set_m_channel MIDI_CHANNEL_NONE) ;;
    message_assign (set_mtc_msg_type (N.shiftr byte 4)) ;;
    message_assign (set_mtc_values (N.land byte MIDI_LSN_MASK)) ;;
    ret MIDI_MESSAGE_MTC_QUARTER_FRAME
  else if one_of pending [MIDI_MESSAGE_SONG_POSITION_POINTER] then
    accumulate byte ;;
    count <- parser_field p_byte_count ;;
    if negb (count =? 2) then ret MIDI_MESSAGE_NONE else
    parser_assign (set_p_message_type MIDI_MESSAGE_NONE) ;;
    parser_assign (set_p_byte_count 0) ;;
    message_assign (set_m_message_type MIDI_MESSAGE_SONG_POSITION_POINTER) ;;
    message_assign (set_m_channel MIDI_CHANNEL_NONE) ;;
    value <- combine_14bit ;;
    message_assign (set_song_position value) ;;
    message_field m_message_type
  else if one_of pending [MIDI_MESSAGE_SONG_SELECT] then
    parser_assign (set_p_message_type MIDI_MESSAGE_NONE) ;;
    parser_assign (set_p_byte_count 0) ;;
    message_assign (set_m_message_type MIDI_MESSAGE_SONG_SELECT) ;;
    message_assign (set_m_channel MIDI_CHANNEL_NONE) ;;
    message_assign (set_song_select byte) ;;
    ret MIDI_MESSAGE_SONG_SELECT
  else
    (* unexpected data byte at this time *)
    ret MIDI_MESSAGE_NONE.

(** ** [midi_parse_byte] *)

Definition midi_parse_byte (byte : N) : exec N :=
  if negb (N.land byte MIDI_MSB_MASK =? 0)
  then parse_status_byte byte
  else parse_data_byte byte.

(** The call [midi_parse_byte(&parser, byte, &message)]: the value
    returned and the two objects afterwards. *)
Definition decode (parser : midi_parser_t) (byte : N)
    (message : midi_message_t)
  : option (N * midi_parser_t * midi_message_t) :=
  midi_parse_byte byte parser message.

(** A caller that feeds a byte stream to one parser, one call per byte
    with one message object, and records what every call returned
    together with the message object after that call. *)
Fixpoint feed (parser : midi_parser_t) (message : midi_message_t)
    (bytes : list N)
  : option (list (N * midi_message_t) * midi_parser_t * midi_message_t) :=
  match bytes with
  | [] => Some ([], parser, message)
  | byte :: rest =>
      match decode parser byte message with
      | None => None
      | Some (result, parser', message') =>
          match feed parser' message' rest with
          | None => None
          | Some (results, parser'', message'') =>
              Some ((result, message') :: results, parser'', message'')
          end
      end
  end.


(** ** Vocabulary of the properties *)

(** A message object cleared with [memset], as the tests do. *)
Definition blank_message : midi_message_t :=
  mk_message 0 0 0 0 0 0 0 0 0 0 0 0 0 0 0.

(** The parser states reachable from an initialized parser by calls of
    [midi_parse_byte], whatever the bytes and the message objects. *)
Inductive reachable : midi_parser_t -> Prop :=
| reachable_init (p0 : midi_parser_t) : reachable (midi_parser_init p0)
| reachable_step (p p' : midi_parser_t) (byte kind : N)
    (m m' : midi_message_t) :
    reachable p ->
    decode p byte m = Some (kind, p', m') ->
    reachable p'.

(** The status bytes of the channel voice messages, without channel. *)
Definition channel_voice_kinds : list N :=
  [MIDI_MESSAGE_NOTE_OFF; MIDI_MESSAGE_NOTE_ON; MIDI_MESSAGE_KEY_PRESSURE;
   MIDI_MESSAGE_CONTROL_CHANGE; MIDI_MESSAGE_PROGRAM_CHANGE;
   MIDI_MESSAGE_CHANNEL_PRESSURE; MIDI_MESSAGE_PITCH_BEND].

(** The System Real-Time bytes. *)
Definition realtime_bytes : list N :=
  [MIDI_MESSAGE_TIMING_CLOCK; MIDI_MESSAGE_START; MIDI_MESSAGE_CONTINUE;
   MIDI_MESSAGE_STOP; MIDI_MESSAGE_ACTIVE_SENSE; MIDI_MESSAGE_SYSTEM_RESET].

(** The status bytes MIDI 1.0 leaves undefined. *)
Definition undefined_status_bytes : list N := [0xF4; 0xF5; 0xF9; 0xFD].

(** The number of data bytes a pending kind requires, as the
    specification lists them: two for Note Off, Note On, Poly Key
    Pressure, Control Change, Pitch Bend and Song Position Pointer; one
    for Program Change, Channel Pressure, Song Select and MTC Quarter
    Frame; none for every other kind. *)
Definition data_bytes_required (kind : N) : N :=
  if one_of kind
       [MIDI_MESSAGE_NOTE_OFF; MIDI_MESSAGE_NOTE_ON;
        MIDI_MESSAGE_KEY_PRESSURE; MIDI_MESSAGE_CONTROL_CHANGE;
        MIDI_MESSAGE_PITCH_BEND; MIDI_MESSAGE_SONG_POSITION_POINTER]
  then 2
  else if one_of kind
            [MIDI_MESSAGE_PROGRAM_CHANGE; MIDI_MESSAGE_CHANNEL_PRESSURE;
             MIDI_MESSAGE_SONG_SELECT; MIDI_MESSAGE_MTC_QUARTER_FRAME]
  then 1
  else 0.

(** The kind the specification gives a completed Control Change: the
    dedicated Channel-Mode kind for the controllers 120 to 127, plain
    Control Change for the others. *)
Definition control_change_kind (controller_number : N) : N :=
  if controller_number =? 120 then MIDI_MESSAGE_ALL_SOUND_OFF
  else if controller_number =? 121 then MIDI_MESSAGE_RESET_ALL_CONTROLLERS
  else if controller_number =? 122 then MIDI_MESSAGE_LOCAL_CONTROL
  else if controller_number =? 123 then MIDI_MESSAGE_ALL_NOTES_OFF
  else if controller_number =? 124 then MIDI_MESSAGE_OMNI_OFF
  else if controller_number =? 125 then MIDI_MESSAGE_OMNI_ON
  else if controller_number =? 126 then MIDI_MESSAGE_MONO_ON
  else if controller_number =? 127 then MIDI_MESSAGE_POLY_ON
  else MIDI_MESSAGE_CONTROL_CHANGE.

(** The kind the specification gives a completed Note On. *)
Definition note_on_kind (velocity_byte : N) : N :=
  if velocity_byte =? 0 then MIDI_MESSAGE_NOTE_OFF else MIDI_MESSAGE_NOTE_ON.

(** Modelled from the spec: [midi_parser_set_active_channel] and
    [midi_parser_get_active_channel] are declared in [midi.h] and
    defined nowhere in the sources; the specification has them store
    and retrieve the [active_channel] slot of the parser. *)
Definition midi_parser_set_active_channel (parser : midi_parser_t)
    (channel : N) : midi_parser_t :=
  set_p_active_channel channel parser.

Definition midi_parser_get_active_channel (parser : midi_parser_t) : N :=
  p_active_channel parser.

(** The numbers below [n], for checking a property of bytes by
    enumeration. *)
Fixpoint below (n : nat) : list N :=
  match n with
  | O => []
  | S k => N.of_nat k :: below k
  end.

(** ** Vocabulary of the further properties *)

(** The message types a call can report as completed. *)
Definition reported_kinds : list N :=
  [MIDI_MESSAGE_NOTE_OFF; MIDI_MESSAGE_NOTE_ON; MIDI_MESSAGE_KEY_PRESSURE;
   MIDI_MESSAGE_CONTROL_CHANGE; MIDI_MESSAGE_ALL_SOUND_OFF;
   MIDI_MESSAGE_RESET_ALL_CONTROLLERS; MIDI_MESSAGE_LOCAL_CONTROL;
   MIDI_MESSAGE_ALL_NOTES_OFF; MIDI_MESSAGE_OMNI_OFF; MIDI_MESSAGE_OMNI_ON;
   MIDI_MESSAGE_MONO_ON; MIDI_MESSAGE_POLY_ON; MIDI_MESSAGE_PROGRAM_CHANGE;
   MIDI_MESSAGE_CHANNEL_PRESSURE; MIDI_MESSAGE_PITCH_BEND;
   MIDI_MESSAGE_SYSTEM_EXCLUSIVE; MIDI_MESSAGE_MTC_QUARTER_FRAME;
   MIDI_MESSAGE_SONG_POSITION_POINTER; MIDI_MESSAGE_SONG_SELECT;
   MIDI_MESSAGE_TUNE_REQUEST; MIDI_MESSAGE_END_OF_EXCLUSIVE;
   MIDI_MESSAGE_TIMING_CLOCK; MIDI_MESSAGE_START; MIDI_MESSAGE_CONTINUE;
   MIDI_MESSAGE_STOP; MIDI_MESSAGE_ACTIVE_SENSE; MIDI_MESSAGE_SYSTEM_RESET].

(** The kinds the parser keeps pending between two calls. *)
Definition pending_kinds : list N :=
  [MIDI_MESSAGE_NONE; MIDI_MESSAGE_NOTE_OFF; MIDI_MESSAGE_NOTE_ON;
   MIDI_MESSAGE_KEY_PRESSURE; MIDI_MESSAGE_CONTROL_CHANGE;
   MIDI_MESSAGE_PROGRAM_CHANGE; MIDI_MESSAGE_CHANNEL_PRESSURE;
   MIDI_MESSAGE_PITCH_BEND; MIDI_MESSAGE_SYSTEM_EXCLUSIVE;
   MIDI_MESSAGE_MTC_QUARTER_FRAME; MIDI_MESSAGE_SONG_POSITION_POINTER;
   MIDI_MESSAGE_SONG_SELECT].

(** The channel voice kinds completed by two data bytes, and by one. *)
Definition two_byte_voice_kinds : list N :=
  [MIDI_MESSAGE_NOTE_OFF; MIDI_MESSAGE_NOTE_ON; MIDI_MESSAGE_KEY_PRESSURE;
   MIDI_MESSAGE_CONTROL_CHANGE; MIDI_MESSAGE_PITCH_BEND].

Definition one_byte_voice_kinds : list N :=
  [MIDI_MESSAGE_PROGRAM_CHANGE; MIDI_MESSAGE_CHANNEL_PRESSURE].

(** The members of the union of [midi_message_t] that belong to a
    message type, in the order [midi.h] declares them. *)
Definition payload (kind : N) (m : midi_message_t) : list N :=
  if one_of kind [MIDI_MESSAGE_NOTE_OFF; MIDI_MESSAGE_NOTE_ON]
  then [note m; velocity m]
  else if one_of kind [MIDI_MESSAGE_KEY_PRESSURE]
  then [key m; key_pressure m]
  else if one_of kind
            [MIDI_MESSAGE_CONTROL_CHANGE; MIDI_MESSAGE_ALL_SOUND_OFF;
             MIDI_MESSAGE_RESET_ALL_CONTROLLERS; MIDI_MESSAGE_LOCAL_CONTROL;
             MIDI_MESSAGE_ALL_NOTES_OFF; MIDI_MESSAGE_OMNI_OFF;
             MIDI_MESSAGE_OMNI_ON; MIDI_MESSAGE_MONO_ON;
             MIDI_MESSAGE_POLY_ON]
  then [controller m; control_value m]
  else if one_of kind [MIDI_MESSAGE_PROGRAM_CHANGE] then [program m]
  else if one_of kind [MIDI_MESSAGE_CHANNEL_PRESSURE]
  then [channel_pressure m]
  else if one_of kind [MIDI_MESSAGE_PITCH_BEND] then [pitch_bend m]
  else if one_of kind [MIDI_MESSAGE_SONG_POSITION_POINTER]
  then [song_position m]
  else if one_of kind [MIDI_MESSAGE_SONG_SELECT] then [song_select m]
  else if one_of kind [MIDI_MESSAGE_MTC_QUARTER_FRAME]
  then [mtc_msg_type m; mtc_values m]
  else [].

(** The largest value a member of the payload of a message type can
    hold when it is made of data bytes: fourteen bits for Pitch Bend
    and Song Position Pointer, seven bits for the others. *)
Definition payload_bound (kind : N) : N :=
  if one_of kind
       [MIDI_MESSAGE_PITCH_BEND; MIDI_MESSAGE_SONG_POSITION_POINTER]
  then 16383
  else 127.

(** The message types that belong to a channel: the channel voice
    messages and the Channel-Mode messages. *)
Definition channel_message_kinds : list N :=
  [MIDI_MESSAGE_NOTE_OFF; MIDI_MESSAGE_NOTE_ON; MIDI_MESSAGE_KEY_PRESSURE;
   MIDI_MESSAGE_CONTROL_CHANGE; MIDI_MESSAGE_PROGRAM_CHANGE;
   MIDI_MESSAGE_CHANNEL_PRESSURE; MIDI_MESSAGE_PITCH_BEND;
   MIDI_MESSAGE_ALL_SOUND_OFF; MIDI_MESSAGE_RESET_ALL_CONTROLLERS;
   MIDI_MESSAGE_LOCAL_CONTROL; MIDI_MESSAGE_ALL_NOTES_OFF;
   MIDI_MESSAGE_OMNI_OFF; MIDI_MESSAGE_OMNI_ON; MIDI_MESSAGE_MONO_ON;
   MIDI_MESSAGE_POLY_ON].

(** The status bytes that complete a message by themselves. *)
Definition single_byte_messages : list N :=
  [MIDI_MESSAGE_SYSTEM_EXCLUSIVE; MIDI_MESSAGE_TUNE_REQUEST;
   MIDI_MESSAGE_END_OF_EXCLUSIVE; MIDI_MESSAGE_TIMING_CLOCK;
   MIDI_MESSAGE_START; MIDI_MESSAGE_CONTINUE; MIDI_MESSAGE_STOP;
   MIDI_MESSAGE_ACTIVE_SENSE; MIDI_MESSAGE_SYSTEM_RESET].

(** What a caller reads after a call: the value returned, and from the
    message object its type, its channel and the payload of the type
    returned. *)
Definition report (r : N * midi_message_t) : N * N * N * list N :=
  (fst r, m_message_type (snd r), m_channel (snd r), payload (fst r) (snd r)).

(** The calls of a feeding loop that completed a message. *)
Definition completed (results : list (N * midi_message_t))
  : list (N * midi_message_t) :=
  filter (fun r => negb (fst r =? MIDI_MESSAGE_NONE)) results.

(** The kind a channel voice message with two data bytes is reported
    with: Note On and Control Change depend on their data. *)
Definition completed_kind (kind d1 d2 : N) : N :=
  if kind =? MIDI_MESSAGE_NOTE_ON then note_on_kind d2
  else if kind =? MIDI_MESSAGE_CONTROL_CHANGE then control_change_kind d1
  else kind.

(** The payload two data bytes give a channel voice message: one
    fourteen-bit value for Pitch Bend, the two bytes for the others. *)
Definition two_byte_payload (kind d1 d2 : N) : list N :=
  if kind =? MIDI_MESSAGE_PITCH_BEND then [d2 * 128 + d1] else [d1; d2].

(** The report expected from a channel voice message of kind [kind]
    on channel [ch] whose data bytes are the pair [pair]. *)
Definition expected_report (kind ch : N) (pair : N * N)
  : N * N * N * list N :=
  (completed_kind kind (fst pair) (snd pair),
   completed_kind kind (fst pair) (snd pair),
   ch,
   two_byte_payload kind (fst pair) (snd pair)).

(** The byte stream of a list of data byte pairs. *)
Definition data_pairs (pairs : list (N * N)) : list N :=
  flat_map (fun pair => [fst pair; snd pair]) pairs.

(** The union of a message object: the object without its type and its
    channel. *)
Definition union_part (m : midi_message_t) : midi_message_t :=
  set_m_channel 0 (set_m_message_type 0 m).

(** The bytes that may interrupt a message: the System Real-Time bytes
    and the undefined status bytes. *)
Definition interrupting_bytes : list N :=
  realtime_bytes ++ undefined_status_bytes.

Definition without_interruptions (bytes : list N) : list N :=
  filter (fun byte => negb (one_of byte interrupting_bytes)) bytes.

(** The completed messages of a feeding loop that are not System
    Real-Time messages. *)
Definition completed_non_realtime (results : list (N * midi_message_t))
  : list (N * midi_message_t) :=
  filter (fun r => negb (one_of (fst r) realtime_bytes)) (completed results).

(** [midi_parser_init] and [midi_parse_byte] on pointers, [None] being
    the NULL pointer: both return before touching anything when a
    pointer is NULL. *)
Definition midi_parser_init_ptr (parser : option midi_parser_t)
  : option midi_parser_t :=
  match parser with
  | None => None
  | Some p => Some (midi_parser_init p)
  end.

Definition midi_parse_byte_ptr (parser : option midi_parser_t) (byte : N)
    (message : option midi_message_t)
  : option (N * option midi_parser_t * option midi_message_t) :=
  match parser, message with
  | Some p, Some m =>
      match midi_parse_byte byte p m with
      | Some (kind, p', m') => Some (kind, Some p', Some m')
      | None => None
      end
  | _, _ => Some (MIDI_MESSAGE_NONE, parser, message)
  end.

(** * Properties *)

(** ** Tools *)

(** Evaluation of a call on a parser and a message given by their
    fields: unfolds the embedding, and nothing of the arithmetic. *)
Ltac exec_unfold :=
  cbv beta iota delta
    [decode midi_parse_byte parse_status_byte parse_data_byte accumulate
     combine_14bit bind ret undefined parser_field parser_assign
     message_field message_assign buffer_load buffer_store one_of existsb
     set_p_message_type set_p_channel set_p_active_channel set_p_buffer0
     set_p_buffer1 set_p_byte_count
     p_message_type p_channel p_active_channel p_buffer0 p_buffer1
     p_byte_count
     set_m_message_type set_m_channel set_note set_velocity set_key
     set_key_pressure set_controller set_control_value set_program
     set_channel_pressure set_pitch_bend set_song_position set_song_select
     set_mtc_msg_type set_mtc_values
     m_message_type m_channel note velocity key key_pressure controller
     control_value program channel_pressure pitch_bend song_position
     song_select mtc_msg_type mtc_values].

(** Case analysis on every comparison left in the goal. *)
Ltac split_tests :=
  repeat match goal with
    | |- context [N.eqb ?a ?b] => destruct (N.eqb_spec a b); cbn
    | |- context [N.leb ?a ?b] => destruct (N.leb_spec a b); cbn
    | |- context [N.ltb ?a ?b] => destruct (N.ltb_spec a b); cbn
    end.

(** Arithmetic on the bounds of the parser. *)
Ltac bounds := unfold MIDI_BUFFER_SIZE, MIDI_MAX_DATA_BYTE in *; lia.

Lemma below_complete (n : nat) (x : N) : x < N.of_nat n -> In x (below n).
Proof.
  induction n as [|k IH]; intros Hx.
  - lia.
  - cbn [below]. destruct (N.eq_dec x (N.of_nat k)) as [->|Hne].
    + now left.
    + right. apply IH. lia.
Qed.

Lemma forall_below (P : N -> bool) (n : nat) :
  forallb P (below n) = true -> forall x, x < N.of_nat n -> P x = true.
Proof.
  intros Hall x Hx. rewrite forallb_forall in Hall.
  apply Hall, below_complete, Hx.
Qed.

Lemma data_byte_msb (byte : N) :
  byte <= 127 -> N.land byte MIDI_MSB_MASK = 0.
Proof.
  intros H. apply N.eqb_eq.
  apply (forall_below (fun b => N.land b MIDI_MSB_MASK =? 0) 128).
  - vm_compute. reflexivity.
  - change (N.of_nat 128) with 128. lia.
Qed.

(** A data byte passes the range check of [parse_data_byte]. *)
Lemma data_byte_in_range (byte : N) :
  byte <= 127 -> (MIDI_MAX_DATA_BYTE <? byte) = false.
Proof. intros H. apply N.ltb_ge. exact H. Qed.

(** A data byte is handled by [parse_data_byte]. *)
Lemma decode_data_byte (p : midi_parser_t) (m : midi_message_t) (byte : N) :
  byte <= 127 -> decode p byte m = parse_data_byte byte p m.
Proof.
  intros H. unfold decode, midi_parse_byte.
  rewrite (data_byte_msb byte H). reflexivity.
Qed.

(** One call of the feeding loop. *)
Lemma feed_step
    (p p' : midi_parser_t) (m m' : midi_message_t) (byte kind : N)
    (rest : list N) :
  decode p byte m = Some (kind, p', m') ->
  feed p m (byte :: rest) =
    match feed p' m' rest with
    | None => None
    | Some (results, p'', m'') => Some ((kind, m') :: results, p'', m'')
    end.
Proof. intros Hrun. cbn [feed]. rewrite Hrun. reflexivity. Qed.

(** A stream of bytes each of which is ignored in the current state is
    ignored as a whole. *)
Lemma feed_ignored
    (p : midi_parser_t) (m : midi_message_t) (ignored : N -> Prop)
    (bytes : list N) :
  (forall byte, ignored byte ->
                decode p byte m = Some (MIDI_MESSAGE_NONE, p, m)) ->
  Forall ignored bytes ->
  feed p m bytes =
    Some (map (fun _ => (MIDI_MESSAGE_NONE, m)) bytes, p, m).
Proof.
  intros Hstep Hall.
  induction Hall as [|byte rest Hbyte _ IH].
  - reflexivity.
  - rewrite (feed_step p p m m byte MIDI_MESSAGE_NONE rest (Hstep byte Hbyte)).
    rewrite IH. reflexivity.
Qed.

(** A data byte that finds a pending kind requiring no data byte. *)
Lemma decode_unexpected_data_byte
    (p : midi_parser_t) (m : midi_message_t) (byte : N) :
  byte <= 127 ->
  data_bytes_required (p_message_type p) = 0 ->
  decode p byte m =
    Some (MIDI_MESSAGE_NONE,
          (if MIDI_BUFFER_SIZE <=? p_byte_count p
           then set_p_byte_count 0 p else p),
          m).
Proof.
  intros Hbyte Hnone. rewrite (decode_data_byte p m byte Hbyte).
  destruct p as [mt ch ach b0 b1 cnt]. cbn [p_message_type] in Hnone.
  revert Hnone. unfold data_bytes_required.
  exec_unfold. rewrite (data_byte_in_range byte Hbyte).
  split_tests; intros Hnone; try discriminate Hnone; try contradiction;
    reflexivity.
Qed.

(** ** Note On and its velocity *)

(** C1. In any parser state whose pending kind is Note On with one
    data byte accumulated, a second data byte completes a message with
    the channel of the parser, the accumulated note and the byte as
    velocity; the kind, returned and stored in the message alike, is
    Note Off when the byte is 0 and Note On when it is 1 to 127; the
    pending kind of the parser is still Note On afterwards. *)
Theorem note_on_second_byte
    (p : midi_parser_t) (m : midi_message_t) (byte : N) :
  p_message_type p = MIDI_MESSAGE_NOTE_ON ->
  p_byte_count p = 1 ->
  byte <= 127 ->
  exists kind p' m',
    decode p byte m = Some (kind, p', m') /\
    kind =
      (if byte =? 0 then MIDI_MESSAGE_NOTE_OFF else MIDI_MESSAGE_NOTE_ON) /\
    m_message_type m' = kind /\
    m_channel m' = p_channel p /\
    note m' = p_buffer0 p /\
    velocity m' = byte /\
    p_message_type p' = MIDI_MESSAGE_NOTE_ON /\
    p_channel p' = p_channel p /\
    p_active_channel p' = p_active_channel p /\
    p_byte_count p' = 0.
Proof.
  intros Hkind Hcount Hbyte.
  rewrite (decode_data_byte p m byte Hbyte).
  destruct p as [mt ch ach b0 b1 cnt], m. cbn in Hkind, Hcount. subst mt cnt.
  exec_unfold. rewrite (data_byte_in_range byte Hbyte). cbn.
  destruct (N.eqb_spec byte 0) as [Hz|Hnz]; cbn;
    do 3 eexists; (split; [reflexivity|]); cbn; repeat split.
Qed.

Lemma note_on_second_byte_witness :
  MIDI_MESSAGE_NOTE_ON = MIDI_MESSAGE_NOTE_ON /\ 1 = 1 /\ 0 <= 127 /\
  exists kind p' m',
    decode (mk_parser MIDI_MESSAGE_NOTE_ON 3 MIDI_CHANNEL_NONE 60 0 1) 0
      blank_message = Some (kind, p', m') /\
    kind = MIDI_MESSAGE_NOTE_OFF /\
    m_message_type m' = kind /\
    m_channel m' = 3 /\
    note m' = 60 /\
    velocity m' = 0 /\
    p_message_type p' = MIDI_MESSAGE_NOTE_ON /\
    p_channel p' = 3 /\
    p_active_channel p' = MIDI_CHANNEL_NONE /\
    p_byte_count p' = 0.
Proof.
  split; [reflexivity|]. split; [reflexivity|]. split; [discriminate|].
  apply (note_on_second_byte
           (mk_parser MIDI_MESSAGE_NOTE_ON 3 MIDI_CHANNEL_NONE 60 0 1)
           blank_message 0); [reflexivity | reflexivity | discriminate].
Defined.

(** ** System Real-Time bytes *)

(** Overwriting the kind and the channel of the message object before a
    call changes neither what the call returns nor the parser it
    leaves, and changes nothing of a message the call completes. *)
Lemma decode_after_message_header
    (p : midi_parser_t) (m : midi_message_t) (byte kind channel : N) :
  match decode p byte m,
        decode p byte (set_m_channel channel (set_m_message_type kind m))
  with
  | Some (k1, p1, m1), Some (k2, p2, m2) =>
      k1 = k2 /\ p1 = p2 /\ (k1 <> MIDI_MESSAGE_NONE -> m1 = m2)
  | _, _ => False
  end.
Proof.
  destruct p as [mt ch ach b0 b1 cnt], m.
  exec_unfold. split_tests;
    first [ solve [ repeat split; try reflexivity;
                    intros Hk; exfalso; apply Hk; reflexivity ]
          | bounds ].
Qed.

(** C2. In any parser state a System Real-Time byte returns its own
    kind, writes that kind and the channel None into the message and
    leaves the parser exactly as it was; the next byte is therefore
    decoded as if the real-time byte had not been there: same value
    returned, same parser afterwards, same message when one completes. *)
Theorem realtime_byte_leaves_parser
    (p : midi_parser_t) (m : midi_message_t) (byte : N) :
  In byte realtime_bytes ->
  exists m',
    decode p byte m = Some (byte, p, m') /\
    m_message_type m' = byte /\
    m_channel m' = MIDI_CHANNEL_NONE /\
    forall next : N,
      match decode p next m, decode p next m' with
      | Some (k1, p1, m1), Some (k2, p2, m2) =>
          k1 = k2 /\ p1 = p2 /\ (k1 <> MIDI_MESSAGE_NONE -> m1 = m2)
      | _, _ => False
      end.
Proof.
  intros Hin.
  exists (set_m_channel MIDI_CHANNEL_NONE (set_m_message_type byte m)).
  split; [|split; [|split]].
  - destruct p as [mt ch ach b0 b1 cnt].
    cbn in Hin.
    repeat (destruct Hin as [<-|Hin]; [reflexivity|]). contradiction.
  - destruct m; reflexivity.
  - destruct m; reflexivity.
  - intros next. apply decode_after_message_header.
Qed.

Lemma realtime_byte_leaves_parser_witness :
  In MIDI_MESSAGE_TIMING_CLOCK realtime_bytes /\
  exists m',
    decode (mk_parser MIDI_MESSAGE_NOTE_ON 0 MIDI_CHANNEL_NONE 60 0 1)
      MIDI_MESSAGE_TIMING_CLOCK blank_message =
      Some (MIDI_MESSAGE_TIMING_CLOCK,
            mk_parser MIDI_MESSAGE_NOTE_ON 0 MIDI_CHANNEL_NONE 60 0 1, m') /\
    m_message_type m' = MIDI_MESSAGE_TIMING_CLOCK /\
    m_channel m' = MIDI_CHANNEL_NONE /\
    forall next : N,
      match decode (mk_parser MIDI_MESSAGE_NOTE_ON 0 MIDI_CHANNEL_NONE 60 0 1)
              next blank_message,
            decode (mk_parser MIDI_MESSAGE_NOTE_ON 0 MIDI_CHANNEL_NONE 60 0 1)
              next m'
      with
      | Some (k1, p1, m1), Some (k2, p2, m2) =>
          k1 = k2 /\ p1 = p2 /\ (k1 <> MIDI_MESSAGE_NONE -> m1 = m2)
      | _, _ => False
      end.
Proof.
  split; [left; reflexivity|].
  apply (realtime_byte_leaves_parser
           (mk_parser MIDI_MESSAGE_NOTE_ON 0 MIDI_CHANNEL_NONE 60 0 1)
           blank_message MIDI_MESSAGE_TIMING_CLOCK).
  left; reflexivity.
Defined.

(** The interruption test of the repository: Note On status, a note, a
    real-time byte, a velocity. *)
Example realtime_interruption_run :
  option_map fst
    (feed (midi_parser_init (mk_parser 0 0 0 0 0 0)) blank_message
       [MIDI_MESSAGE_NOTE_ON; 60; MIDI_MESSAGE_START; 100]) =
  Some ([(MIDI_MESSAGE_NONE, blank_message);
         (MIDI_MESSAGE_NONE, blank_message);
         (MIDI_MESSAGE_START,
          mk_message MIDI_MESSAGE_START MIDI_CHANNEL_NONE
            0 0 0 0 0 0 0 0 0 0 0 0 0);
         (MIDI_MESSAGE_NOTE_ON,
          mk_message MIDI_MESSAGE_NOTE_ON 0 60 100 0 0 0 0 0 0 0 0 0 0 0)],
        mk_parser MIDI_MESSAGE_NOTE_ON 0 MIDI_CHANNEL_NONE 60 100 0).
Proof. vm_compute. reflexivity. Qed.

(** ** Control Change and the Channel-Mode messages *)

(** The cast of the controller to a message kind in [parse_data_byte]
    yields the kind the specification names. *)
Lemma control_change_kind_cast (c : N) :
  control_change_kind c =
    (if one_of c
          [MIDI_CC_ALL_SOUND_OFF; MIDI_CC_RESET_ALL_CONTROLLERS;
           MIDI_CC_LOCAL_CONTROL; MIDI_CC_ALL_NOTES_OFF; MIDI_CC_OMNI_OFF;
           MIDI_CC_OMNI_ON; MIDI_CC_MONO_ON; MIDI_CC_POLY_ON]
     then c else MIDI_MESSAGE_CONTROL_CHANGE).
Proof.
  unfold control_change_kind, one_of. cbn [existsb].
  split_tests; subst; try reflexivity; exfalso; auto.
Qed.

(** C3. In any parser state whose pending kind is Control Change with
    one data byte accumulated, a second data byte completes a message
    with the channel of the parser, the accumulated byte as controller
    and the second byte as control value; its kind, returned and stored
    in the message alike, is the dedicated Channel-Mode kind when the
    controller is 120 to 127 and Control Change otherwise. *)
Theorem control_change_second_byte
    (p : midi_parser_t) (m : midi_message_t) (byte : N) :
  p_message_type p = MIDI_MESSAGE_CONTROL_CHANGE ->
  p_byte_count p = 1 ->
  byte <= 127 ->
  exists kind p' m',
    decode p byte m = Some (kind, p', m') /\
    kind = control_change_kind (p_buffer0 p) /\
    (120 <= p_buffer0 p <= 127 -> kind <> MIDI_MESSAGE_CONTROL_CHANGE) /\
    (~ 120 <= p_buffer0 p <= 127 -> kind = MIDI_MESSAGE_CONTROL_CHANGE) /\
    m_message_type m' = kind /\
    m_channel m' = p_channel p /\
    controller m' = p_buffer0 p /\
    control_value m' = byte /\
    p_message_type p' = MIDI_MESSAGE_CONTROL_CHANGE /\
    p_channel p' = p_channel p /\
    p_byte_count p' = 0.
Proof.
  intros Hkind Hcount Hbyte.
  rewrite (decode_data_byte p m byte Hbyte).
  destruct p as [mt ch ach b0 b1 cnt], m. cbn in Hkind, Hcount. subst mt cnt.
  cbn [p_buffer0 p_channel].
  assert (Hrange : (120 <= b0 <= 127 ->
                    control_change_kind b0 <> MIDI_MESSAGE_CONTROL_CHANGE) /\
                   (~ 120 <= b0 <= 127 ->
                    control_change_kind b0 = MIDI_MESSAGE_CONTROL_CHANGE)).
  { unfold control_change_kind. split; intros Hb; split_tests; subst;
      try discriminate; try reflexivity; exfalso; lia. }
  destruct Hrange as [Hmode Hplain].
  rewrite control_change_kind_cast in *.
  exec_unfold. rewrite (data_byte_in_range byte Hbyte). cbn.
  revert Hmode Hplain. exec_unfold. intros Hmode Hplain.
  match goal with
  | |- context [if ?t then _ else _] => destruct t
  end; cbn; do 3 eexists; (split; [reflexivity|]); cbn;
    repeat split; assumption.
Qed.

Lemma control_change_second_byte_witness :
  exists kind p' m',
    decode (mk_parser MIDI_MESSAGE_CONTROL_CHANGE 5 MIDI_CHANNEL_NONE 123 0 1)
      0 blank_message = Some (kind, p', m') /\
    kind = MIDI_MESSAGE_ALL_NOTES_OFF /\
    m_message_type m' = kind /\
    m_channel m' = 5 /\
    controller m' = 123 /\
    control_value m' = 0.
Proof.
  destruct (control_change_second_byte
              (mk_parser MIDI_MESSAGE_CONTROL_CHANGE 5 MIDI_CHANNEL_NONE
                 123 0 1)
              blank_message 0)
    as (kind & p' & m' & Hrun & Hkind & _ & _ & Htype & Hch & Hc & Hv & _);
    [reflexivity | reflexivity | discriminate |].
  exists kind, p', m'. repeat split; assumption.
Defined.

(** ** Fourteen-bit values *)

(** The expression [high << 7 | low] on two data bytes, stored in a
    [uint16_t]: nothing is lost. *)
Lemma combine_two_data_bytes (low high : N) :
  low <= 127 -> high <= 127 ->
  N.lor (N.shiftl high 7) low mod 65536 = high * 128 + low.
Proof.
  intros Hlow Hhigh. apply N.eqb_eq.
  pose (row := fun h l => N.lor (N.shiftl h 7) l mod 65536 =? h * 128 + l).
  assert (Hall : forallb (fun h => forallb (row h) (below 128)) (below 128)
                 = true) by (vm_compute; reflexivity).
  assert (Hrow : forallb (row high) (below 128) = true).
  { apply (forall_below (fun h => forallb (row h) (below 128)) 128 Hall).
    change (N.of_nat 128) with 128. lia. }
  apply (forall_below (row high) 128 Hrow).
  change (N.of_nat 128) with 128. lia.
Qed.

(** ** Tune Request and End of Exclusive *)

(** C5. In any parser state the bytes 0xF6 (Tune Request) and 0xF7 (End
    of Exclusive) return their own kind, write that kind and the channel
    None into the message, and clear the running status: the pending
    kind becomes None and the count 0, so that the data bytes arriving
    next, however many, are ignored.  No other status byte both
    completes a message and clears a running status that was set. *)
Theorem tune_request_and_end_of_exclusive :
  (forall (p : midi_parser_t) (m : midi_message_t) (byte : N),
      byte = MIDI_MESSAGE_TUNE_REQUEST \/
      byte = MIDI_MESSAGE_END_OF_EXCLUSIVE ->
      exists p' m',
        decode p byte m = Some (byte, p', m') /\
        m_message_type m' = byte /\
        m_channel m' = MIDI_CHANNEL_NONE /\
        p_message_type p' = MIDI_MESSAGE_NONE /\
        p_channel p' = MIDI_CHANNEL_NONE /\
        p_byte_count p' = 0 /\
        (forall data : N,
            data <= 127 ->
            decode p' data m' = Some (MIDI_MESSAGE_NONE, p', m')) /\
        (forall stream : list N,
            Forall (fun data => data <= 127) stream ->
            feed p' m' stream =
              Some (map (fun _ => (MIDI_MESSAGE_NONE, m')) stream, p', m'))) /\
  (forall (p p' : midi_parser_t) (m m' : midi_message_t) (byte kind : N),
      N.land byte MIDI_MSB_MASK <> 0 ->
      p_message_type p <> MIDI_MESSAGE_NONE ->
      decode p byte m = Some (kind, p', m') ->
      kind <> MIDI_MESSAGE_NONE ->
      p_message_type p' = MIDI_MESSAGE_NONE ->
      byte = MIDI_MESSAGE_TUNE_REQUEST \/
      byte = MIDI_MESSAGE_END_OF_EXCLUSIVE).
Proof.
  split.
  - intros p m byte Hbyte.
    destruct p as [mt ch ach b0 b1 cnt].
    assert (Hnext : forall (t : N) data,
               data <= 127 ->
               let p' := mk_parser MIDI_MESSAGE_NONE MIDI_CHANNEL_NONE ach
                           b0 b1 0 in
               let m' := set_m_channel MIDI_CHANNEL_NONE
                           (set_m_message_type t m) in
               decode p' data m' = Some (MIDI_MESSAGE_NONE, p', m')).
    { intros t data Hdata p' m'.
      rewrite (decode_unexpected_data_byte p' m' data Hdata eq_refl).
      reflexivity. }
    destruct Hbyte as [-> | ->];
      do 2 eexists; (split; [reflexivity|]); cbn; repeat split;
      solve [ apply Hnext
            | intros stream Hstream;
              apply (feed_ignored _ _ (fun data => data <= 127));
              [apply Hnext | exact Hstream] ].
  - intros p p' m m' byte kind Hstatus Hpending Hrun Hkind Hcleared.
    destruct p as [mt ch ach b0 b1 cnt], m.
    cbn in Hpending. revert Hrun. exec_unfold.
    destruct (N.eqb_spec (N.land byte MIDI_MSB_MASK) 0) as [Hz|_];
      [contradiction|]. cbn.
    split_tests; intros Hrun; injection Hrun as <- <- <-;
      cbn in Hcleared; subst;
      try (exfalso; apply Hkind; reflexivity);
      try discriminate; try contradiction; auto.
Qed.

Lemma tune_request_and_end_of_exclusive_witness :
  (exists p' m',
      decode (mk_parser MIDI_MESSAGE_SYSTEM_EXCLUSIVE 7 MIDI_CHANNEL_NONE
                0 0 0)
        MIDI_MESSAGE_END_OF_EXCLUSIVE blank_message =
        Some (MIDI_MESSAGE_END_OF_EXCLUSIVE, p', m') /\
      p_message_type p' = MIDI_MESSAGE_NONE /\
      decode p' 64 m' = Some (MIDI_MESSAGE_NONE, p', m')) /\
  (MIDI_MESSAGE_TUNE_REQUEST = MIDI_MESSAGE_TUNE_REQUEST \/
   MIDI_MESSAGE_TUNE_REQUEST = MIDI_MESSAGE_END_OF_EXCLUSIVE).
Proof.
  destruct tune_request_and_end_of_exclusive as [Hclear Honly].
  split.
  - destruct (Hclear (mk_parser MIDI_MESSAGE_SYSTEM_EXCLUSIVE 7
                        MIDI_CHANNEL_NONE 0 0 0)
                blank_message MIDI_MESSAGE_END_OF_EXCLUSIVE)
      as (p' & m' & Hrun & _ & _ & Hkind & _ & _ & Hnext & _);
      [right; reflexivity|].
    exists p', m'. repeat split; try assumption.
    apply Hnext. discriminate.
  - apply (Honly (mk_parser MIDI_MESSAGE_NOTE_ON 0 MIDI_CHANNEL_NONE 60 0 1)
             (mk_parser MIDI_MESSAGE_NONE MIDI_CHANNEL_NONE
                MIDI_CHANNEL_NONE 60 0 0)
             blank_message
             (mk_message MIDI_MESSAGE_TUNE_REQUEST MIDI_CHANNEL_NONE
                0 0 0 0 0 0 0 0 0 0 0 0 0)
             MIDI_MESSAGE_TUNE_REQUEST MIDI_MESSAGE_TUNE_REQUEST);
      [discriminate | discriminate | reflexivity | discriminate
      | reflexivity].
Defined.

(** ** Running status *)

(** The status byte [kind | channel] of a channel voice message. *)
Lemma voice_status_byte (kind channel : N) :
  In kind channel_voice_kinds -> channel <= 15 ->
  N.land (N.lor kind channel) MIDI_MSB_MASK <> 0 /\
  N.land (N.lor kind channel) MIDI_MSN_MASK = kind /\
  N.land (N.lor kind channel) MIDI_CHANNEL_MASK = channel.
Proof.
  intros Hkind Hch.
  pose (ok := fun k c =>
          negb (N.land (N.lor k c) MIDI_MSB_MASK =? 0) &&
          (N.land (N.lor k c) MIDI_MSN_MASK =? k) &&
          (N.land (N.lor k c) MIDI_CHANNEL_MASK =? c)).
  assert (Hall : forallb (fun k => forallb (ok k) (below 16))
                   channel_voice_kinds = true) by (vm_compute; reflexivity).
  rewrite forallb_forall in Hall. specialize (Hall kind Hkind).
  assert (Hok : ok kind channel = true).
  { apply (forall_below (ok kind) 16 Hall).
    change (N.of_nat 16) with 16. lia. }
  unfold ok in Hok.
  apply andb_prop in Hok as [Hok H3]. apply andb_prop in Hok as [H1 H2].
  apply negb_true_iff, N.eqb_neq in H1.
  apply N.eqb_eq in H2. apply N.eqb_eq in H3. auto.
Qed.

(** A channel voice status byte sets the running status and completes
    nothing. *)
Lemma decode_voice_status
    (p : midi_parser_t) (m : midi_message_t) (kind channel : N) :
  In kind channel_voice_kinds -> channel <= 15 ->
  decode p (N.lor kind channel) m =
    Some (MIDI_MESSAGE_NONE,
          mk_parser kind channel (p_active_channel p) (p_buffer0 p)
            (p_buffer1 p) 0,
          m).
Proof.
  intros Hkind Hch.
  destruct (voice_status_byte kind channel Hkind Hch) as (Hmsb & Hmsn & Hlsn).
  destruct p as [mt ch ach b0 b1 cnt].
  exec_unfold. rewrite Hmsn, Hlsn.
  destruct (N.eqb_spec (N.land (N.lor kind channel) MIDI_MSB_MASK) 0)
    as [Hz|_]; [contradiction|].
  cbn in Hkind.
  repeat (destruct Hkind as [<-|Hkind]; [reflexivity|]). contradiction.
Qed.

(** A data byte leaves the running status of a channel voice message as
    it is, whether it completes a message or not. *)
Lemma voice_data_byte_keeps_status
    (p : midi_parser_t) (m : midi_message_t) (byte : N) :
  In (p_message_type p) channel_voice_kinds ->
  byte <= 127 ->
  exists kind p' m',
    decode p byte m = Some (kind, p', m') /\
    p_message_type p' = p_message_type p /\
    p_channel p' = p_channel p.
Proof.
  intros Hkind Hbyte. rewrite (decode_data_byte p m byte Hbyte).
  destruct p as [mt ch ach b0 b1 cnt], m. cbn in Hkind.
  repeat (destruct Hkind as [<-|Hkind];
          [exec_unfold; rewrite (data_byte_in_range byte Hbyte); cbn;
           split_tests;
           first [ do 3 eexists; (split; [reflexivity|]); split; reflexivity
                 | exfalso; bounds ]|]).
  contradiction.
Qed.

(** Evaluation of the next call of a feeding loop on a data byte whose
    bound is among the hypotheses. *)
Ltac feed_data_byte :=
  erewrite feed_step;
  [| rewrite decode_data_byte by assumption; exec_unfold;
     rewrite ?data_byte_in_range by assumption; cbn;
     repeat match goal with
       | E : (_ =? _) = _ |- _ => rewrite E
       end;
     cbn; reflexivity].

(** C4. A data byte never changes the pending kind and the channel of
    a channel voice message, so running status persists: after a Note
    On status byte and a completed note and velocity, two more data
    bytes complete a second Note On message on the same channel (of
    kind Note Off when its velocity is 0), and after a Program Change
    or Channel Pressure status byte every data byte completes a message
    of that kind on that channel. *)
Theorem running_status_persists :
  (forall (p : midi_parser_t) (m : midi_message_t) (byte : N),
      In (p_message_type p) channel_voice_kinds ->
      byte <= 127 ->
      exists kind p' m',
        decode p byte m = Some (kind, p', m') /\
        p_message_type p' = p_message_type p /\
        p_channel p' = p_channel p) /\
  (forall (p : midi_parser_t) (m : midi_message_t) (ch n1 v1 n2 v2 : N),
      ch <= 15 -> n1 <= 127 -> v1 <= 127 -> n2 <= 127 -> v2 <= 127 ->
      exists ma mb m1 mc m2 p',
        feed p m [N.lor MIDI_MESSAGE_NOTE_ON ch; n1; v1; n2; v2] =
          Some ([(MIDI_MESSAGE_NONE, ma); (MIDI_MESSAGE_NONE, mb);
                 (note_on_kind v1, m1);
                 (MIDI_MESSAGE_NONE, mc); (note_on_kind v2, m2)],
                p', m2) /\
        m_message_type m1 = note_on_kind v1 /\
        m_channel m1 = ch /\ note m1 = n1 /\ velocity m1 = v1 /\
        m_message_type m2 = note_on_kind v2 /\
        m_channel m2 = ch /\ note m2 = n2 /\ velocity m2 = v2 /\
        p_message_type p' = MIDI_MESSAGE_NOTE_ON /\ p_channel p' = ch) /\
  (forall (p : midi_parser_t) (m : midi_message_t) (ch d1 d2 : N),
      ch <= 15 -> d1 <= 127 -> d2 <= 127 ->
      (exists ma m1 m2 p',
          feed p m [N.lor MIDI_MESSAGE_PROGRAM_CHANGE ch; d1; d2] =
            Some ([(MIDI_MESSAGE_NONE, ma);
                   (MIDI_MESSAGE_PROGRAM_CHANGE, m1);
                   (MIDI_MESSAGE_PROGRAM_CHANGE, m2)], p', m2) /\
          m_message_type m1 = MIDI_MESSAGE_PROGRAM_CHANGE /\
          m_channel m1 = ch /\ program m1 = d1 /\
          m_message_type m2 = MIDI_MESSAGE_PROGRAM_CHANGE /\
          m_channel m2 = ch /\ program m2 = d2 /\
          p_message_type p' = MIDI_MESSAGE_PROGRAM_CHANGE /\
          p_channel p' = ch) /\
      (exists ma m1 m2 p',
          feed p m [N.lor MIDI_MESSAGE_CHANNEL_PRESSURE ch; d1; d2] =
            Some ([(MIDI_MESSAGE_NONE, ma);
                   (MIDI_MESSAGE_CHANNEL_PRESSURE, m1);
                   (MIDI_MESSAGE_CHANNEL_PRESSURE, m2)], p', m2) /\
          m_message_type m1 = MIDI_MESSAGE_CHANNEL_PRESSURE /\
          m_channel m1 = ch /\ channel_pressure m1 = d1 /\
          m_message_type m2 = MIDI_MESSAGE_CHANNEL_PRESSURE /\
          m_channel m2 = ch /\ channel_pressure m2 = d2 /\
          p_message_type p' = MIDI_MESSAGE_CHANNEL_PRESSURE /\
          p_channel p' = ch)).
Proof.
  split; [exact voice_data_byte_keeps_status|]. split.
  - intros p m ch n1 v1 n2 v2 Hch Hn1 Hv1 Hn2 Hv2.
    destruct p as [mt pch ach b0 b1 cnt], m. unfold note_on_kind.
    erewrite feed_step
      by (apply decode_voice_status; [cbn; tauto | assumption]).
    destruct (v1 =? 0) eqn:E1; destruct (v2 =? 0) eqn:E2;
      do 4 feed_data_byte; cbn [feed];
      do 6 eexists; (split; [reflexivity|]); cbn; repeat split.
  - intros p m ch d1 d2 Hch Hd1 Hd2.
    destruct p as [mt pch ach b0 b1 cnt], m.
    split;
      (erewrite feed_step
         by (apply decode_voice_status; [cbn; tauto | assumption]));
      do 2 feed_data_byte; cbn [feed];
      do 4 eexists; (split; [reflexivity|]); cbn; repeat split.
Qed.

Lemma running_status_persists_witness :
  (exists kind p' m',
      decode (mk_parser MIDI_MESSAGE_PROGRAM_CHANGE 9 MIDI_CHANNEL_NONE
                0 0 0) 17 blank_message = Some (kind, p', m') /\
      p_message_type p' = MIDI_MESSAGE_PROGRAM_CHANGE /\
      p_channel p' = 9) /\
  (exists ma mb m1 mc m2 p',
      feed (midi_parser_init (mk_parser 0 0 0 0 0 0)) blank_message
        [N.lor MIDI_MESSAGE_NOTE_ON 4; 60; 100; 62; 90] =
        Some ([(MIDI_MESSAGE_NONE, ma); (MIDI_MESSAGE_NONE, mb);
               (MIDI_MESSAGE_NOTE_ON, m1);
               (MIDI_MESSAGE_NONE, mc); (MIDI_MESSAGE_NOTE_ON, m2)],
              p', m2) /\
      m_channel m2 = 4 /\ note m2 = 62 /\ velocity m2 = 90) /\
  (exists ma m1 m2 p',
      feed (midi_parser_init (mk_parser 0 0 0 0 0 0)) blank_message
        [N.lor MIDI_MESSAGE_CHANNEL_PRESSURE 15; 1; 2] =
        Some ([(MIDI_MESSAGE_NONE, ma);
               (MIDI_MESSAGE_CHANNEL_PRESSURE, m1);
               (MIDI_MESSAGE_CHANNEL_PRESSURE, m2)], p', m2) /\
      m_channel m2 = 15 /\ channel_pressure m2 = 2).
Proof.
  destruct running_status_persists as (Hkeep & Hnote & Hone).
  split; [|split].
  - apply (Hkeep (mk_parser MIDI_MESSAGE_PROGRAM_CHANGE 9 MIDI_CHANNEL_NONE
                    0 0 0) blank_message 17);
      [cbn; tauto | discriminate].
  - destruct (Hnote (midi_parser_init (mk_parser 0 0 0 0 0 0)) blank_message
                4 60 100 62 90)
      as (ma & mb & m1 & mc & m2 & p' & Hrun & _ & _ & _ & _ & _ &
          Hch & Hn & Hv & _); try discriminate.
    exists ma, mb, m1, mc, m2, p'. repeat split; assumption.
  - destruct (Hone (midi_parser_init (mk_parser 0 0 0 0 0 0)) blank_message
                15 1 2) as [_ Hcp]; try discriminate.
    destruct Hcp as (ma & m1 & m2 & p' & Hrun & _ & _ & _ & _ & Hch & Hv & _).
    exists ma, m1, m2, p'. repeat split; assumption.
Defined.

(** ** Fourteen-bit values in a stream *)

(** C6. From any parser state, a Pitch Bend status byte, or the Song
    Position Pointer status byte, followed by the data bytes [low] and
    then [high], both in 0 to 127, completes on the second data byte a
    message whose value is [high * 128 + low]: the low seven bits are
    the first data byte received, the high seven bits the second, and
    the value fits its fourteen bits.  The same holds for the second
    data byte alone in any state that has accumulated [low]. *)
Theorem fourteen_bit_value
    (p : midi_parser_t) (m : midi_message_t) (ch low high : N) :
  ch <= 15 ->
  low <= 127 ->
  high <= 127 ->
  (exists ma mb m' p',
     feed p m [N.lor MIDI_MESSAGE_PITCH_BEND ch; low; high] =
       Some ([(MIDI_MESSAGE_NONE, ma); (MIDI_MESSAGE_NONE, mb);
              (MIDI_MESSAGE_PITCH_BEND, m')], p', m') /\
     m_message_type m' = MIDI_MESSAGE_PITCH_BEND /\
     m_channel m' = ch /\
     pitch_bend m' = high * 128 + low /\
     pitch_bend m' mod 128 = low /\
     pitch_bend m' / 128 = high /\
     pitch_bend m' < 16384) /\
  (exists ma mb m' p',
     feed p m [MIDI_MESSAGE_SONG_POSITION_POINTER; low; high] =
       Some ([(MIDI_MESSAGE_NONE, ma); (MIDI_MESSAGE_NONE, mb);
              (MIDI_MESSAGE_SONG_POSITION_POINTER, m')], p', m') /\
     m_message_type m' = MIDI_MESSAGE_SONG_POSITION_POINTER /\
     m_channel m' = MIDI_CHANNEL_NONE /\
     song_position m' = high * 128 + low /\
     song_position m' mod 128 = low /\
     song_position m' / 128 = high /\
     song_position m' < 16384) /\
  (p_buffer0 p = low ->
   p_byte_count p = 1 ->
   (p_message_type p = MIDI_MESSAGE_PITCH_BEND ->
    exists p' m',
      decode p high m = Some (MIDI_MESSAGE_PITCH_BEND, p', m') /\
      m_message_type m' = MIDI_MESSAGE_PITCH_BEND /\
      m_channel m' = p_channel p /\
      pitch_bend m' = high * 128 + low /\
      pitch_bend m' mod 128 = low /\
      pitch_bend m' / 128 = high /\
      pitch_bend m' < 16384) /\
   (p_message_type p = MIDI_MESSAGE_SONG_POSITION_POINTER ->
    exists p' m',
      decode p high m = Some (MIDI_MESSAGE_SONG_POSITION_POINTER, p', m') /\
      m_message_type m' = MIDI_MESSAGE_SONG_POSITION_POINTER /\
      m_channel m' = MIDI_CHANNEL_NONE /\
      song_position m' = high * 128 + low /\
      song_position m' mod 128 = low /\
      song_position m' / 128 = high /\
      song_position m' < 16384)).
Proof.
  intros Hch Hlow Hhigh.
  assert (Hmod : (high * 128 + low) mod 128 = low).
  { rewrite N.add_comm, N.Div0.mod_add. apply N.mod_small. lia. }
  assert (Hdiv : (high * 128 + low) / 128 = high).
  { rewrite N.add_comm, N.div_add by discriminate.
    rewrite N.div_small by lia. reflexivity. }
  pose proof (combine_two_data_bytes low high Hlow Hhigh) as Hvalue.
  assert (Hstep : forall (q : midi_parser_t) (mq : midi_message_t)
                         (d : N) (r : N * midi_parser_t * midi_message_t),
             d <= 127 ->
             parse_data_byte d q mq = Some r ->
             decode q d mq = Some r).
  { intros q mq d r Hd Hrun. rewrite (decode_data_byte q mq d Hd).
    exact Hrun. }
  destruct p as [mt pch ach b0 b1 cnt], m.
  split; [|split].
  - erewrite feed_step
      by (apply decode_voice_status; [cbn; tauto | assumption]).
    do 2 (erewrite feed_step
            by (apply Hstep; [assumption|]; exec_unfold;
                rewrite data_byte_in_range by assumption; reflexivity)).
    cbn [feed]. do 4 eexists. split; [reflexivity|].
    cbn - [N.lor N.shiftl N.modulo N.mul N.add N.div N.lt].
    rewrite Hvalue. repeat split; try assumption; lia.
  - erewrite feed_step by reflexivity.
    do 2 (erewrite feed_step
            by (apply Hstep; [assumption|]; exec_unfold;
                rewrite data_byte_in_range by assumption; reflexivity)).
    cbn [feed]. do 4 eexists. split; [reflexivity|].
    cbn - [N.lor N.shiftl N.modulo N.mul N.add N.div N.lt].
    rewrite Hvalue. repeat split; try assumption; lia.
  - cbn [p_buffer0 p_byte_count p_message_type p_channel].
    intros Hb0 Hcount. subst b0 cnt.
    split; intros Hkind; subst mt;
      rewrite (decode_data_byte _ _ high Hhigh);
      exec_unfold; rewrite (data_byte_in_range high Hhigh); cbn;
      do 2 eexists; (split; [reflexivity|]); cbn;
      rewrite Hvalue; repeat split; try assumption; lia.
Qed.

Lemma fourteen_bit_value_witness :
  (exists ma mb m' p',
     feed (midi_parser_init (mk_parser 0 0 0 0 0 0)) blank_message
       [N.lor MIDI_MESSAGE_PITCH_BEND 2; 5; 1] =
       Some ([(MIDI_MESSAGE_NONE, ma); (MIDI_MESSAGE_NONE, mb);
              (MIDI_MESSAGE_PITCH_BEND, m')], p', m') /\
     m_channel m' = 2 /\
     pitch_bend m' = 133) /\
  (exists ma mb m' p',
     feed (midi_parser_init (mk_parser 0 0 0 0 0 0)) blank_message
       [MIDI_MESSAGE_SONG_POSITION_POINTER; 127; 127] =
       Some ([(MIDI_MESSAGE_NONE, ma); (MIDI_MESSAGE_NONE, mb);
              (MIDI_MESSAGE_SONG_POSITION_POINTER, m')], p', m') /\
     song_position m' = 16383) /\
  (exists p' m',
     decode (mk_parser MIDI_MESSAGE_PITCH_BEND 2 MIDI_CHANNEL_NONE 127 0 1)
       127 blank_message = Some (MIDI_MESSAGE_PITCH_BEND, p', m') /\
     pitch_bend m' = 16383).
Proof.
  split; [|split].
  - destruct (fourteen_bit_value
                (midi_parser_init (mk_parser 0 0 0 0 0 0)) blank_message
                2 5 1)
      as [(ma & mb & m' & p' & Hrun & _ & Hc & Hv & _) _];
      [discriminate | discriminate | discriminate |].
    exists ma, mb, m', p'. repeat split; assumption.
  - destruct (fourteen_bit_value
                (midi_parser_init (mk_parser 0 0 0 0 0 0)) blank_message
                0 127 127)
      as (_ & (ma & mb & m' & p' & Hrun & _ & _ & Hv & _) & _);
      [discriminate | discriminate | discriminate |].
    exists ma, mb, m', p'. repeat split; assumption.
  - destruct (fourteen_bit_value
                (mk_parser MIDI_MESSAGE_PITCH_BEND 2 MIDI_CHANNEL_NONE
                   127 0 1)
                blank_message 2 127 127)
      as (_ & _ & Hsecond);
      [discriminate | discriminate | discriminate |].
    destruct (Hsecond eq_refl eq_refl) as [Hpb _].
    destruct (Hpb eq_refl) as (p' & m' & Hrun & _ & _ & Hv & _).
    exists p', m'. split; assumption.
Defined.

(** ** The accumulation count *)

(** No call reads or writes the buffer out of its bounds: the model of
    the call never fails. *)
Lemma decode_defined (p : midi_parser_t) (byte : N) (m : midi_message_t) :
  exists kind p' m', decode p byte m = Some (kind, p', m').
Proof.
  destruct p as [mt ch ach b0 b1 cnt], m.
  exec_unfold. split_tests;
    first [ do 3 eexists; reflexivity | exfalso; bounds ].
Qed.

(** The bound on the count is kept by every call. *)
Lemma decode_keeps_count_bound
    (p p' : midi_parser_t) (m m' : midi_message_t) (byte kind : N) :
  p_byte_count p <= data_bytes_required (p_message_type p) ->
  p_byte_count p <= 1 ->
  decode p byte m = Some (kind, p', m') ->
  p_byte_count p' <= data_bytes_required (p_message_type p') /\
  p_byte_count p' <= 1.
Proof.
  destruct p as [mt ch ach b0 b1 cnt], m.
  cbn [p_byte_count p_message_type]. intros Hreq Hone.
  exec_unfold.
  split_tests; intros Hrun; try discriminate Hrun;
    injection Hrun as <- <- <-; cbn [p_byte_count p_message_type];
    try (split; [apply N.le_0_l | discriminate]);
    try (split; assumption);
    subst;
    first [ exfalso;
            match goal with
            | Hn : _ mod 256 <> 2 |- _ => apply Hn; reflexivity
            end
          | vm_compute; split; discriminate ].
Qed.

(** The bound holds in every reachable state. *)
Lemma reachable_count_bound (p : midi_parser_t) :
  reachable p ->
  p_byte_count p <= data_bytes_required (p_message_type p) /\
  p_byte_count p <= 1.
Proof.
  intros Hreach.
  induction Hreach as [p0 | p p' byte kind m m' _ [IHreq IHone] Hrun].
  - cbn. split; [apply N.le_0_l | discriminate].
  - exact (decode_keeps_count_bound p p' m m' byte kind IHreq IHone Hrun).
Qed.

(** C7. In every parser state reachable from an initialized parser the
    count is at most the number of data bytes the pending kind requires,
    and is 0 or 1; a data byte that finds the count at 2 or more resets
    it to 0, is otherwise ignored and completes nothing; and no call
    accesses the buffer outside its two bytes. *)
Theorem byte_count_invariant :
  (forall p : midi_parser_t,
      reachable p ->
      p_byte_count p <= data_bytes_required (p_message_type p) /\
      (p_byte_count p = 0 \/ p_byte_count p = 1)) /\
  (forall (p : midi_parser_t) (m : midi_message_t) (byte : N),
      byte <= 127 ->
      MIDI_BUFFER_SIZE <= p_byte_count p ->
      decode p byte m = Some (MIDI_MESSAGE_NONE, set_p_byte_count 0 p, m)) /\
  (forall (p : midi_parser_t) (byte : N) (m : midi_message_t),
      exists kind p' m', decode p byte m = Some (kind, p', m')).
Proof.
  split; [|split].
  - intros p Hreach.
    destruct (reachable_count_bound p Hreach) as [Hreq Hone].
    split; [exact Hreq | lia].
  - intros p m byte Hbyte Hfull.
    rewrite (decode_data_byte p m byte Hbyte).
    destruct p as [mt ch ach b0 b1 cnt]. cbn in Hfull.
    exec_unfold. rewrite (data_byte_in_range byte Hbyte).
    destruct (N.leb_spec MIDI_BUFFER_SIZE cnt) as [_|Hlt];
      [reflexivity | bounds].
  - exact decode_defined.
Qed.

Lemma byte_count_invariant_witness :
  (p_byte_count (mk_parser MIDI_MESSAGE_NOTE_ON 0 MIDI_CHANNEL_NONE 60 0 1)
     <= data_bytes_required MIDI_MESSAGE_NOTE_ON /\
   (p_byte_count (mk_parser MIDI_MESSAGE_NOTE_ON 0 MIDI_CHANNEL_NONE 60 0 1)
      = 0 \/
    p_byte_count (mk_parser MIDI_MESSAGE_NOTE_ON 0 MIDI_CHANNEL_NONE 60 0 1)
      = 1)) /\
  decode (mk_parser MIDI_MESSAGE_NOTE_ON 0 MIDI_CHANNEL_NONE 60 61 2) 62
    blank_message =
    Some (MIDI_MESSAGE_NONE,
          mk_parser MIDI_MESSAGE_NOTE_ON 0 MIDI_CHANNEL_NONE 60 61 0,
          blank_message).
Proof.
  destruct byte_count_invariant as (Hreach & Hguard & _).
  split.
  - apply (Hreach (mk_parser MIDI_MESSAGE_NOTE_ON 0 MIDI_CHANNEL_NONE
                     60 0 1)).
    apply (reachable_step
             (mk_parser MIDI_MESSAGE_NOTE_ON 0 MIDI_CHANNEL_NONE 0 0 0)
             _ 60 MIDI_MESSAGE_NONE blank_message blank_message);
      [|reflexivity].
    apply (reachable_step (midi_parser_init (mk_parser 0 0 0 0 0 0))
             _ MIDI_MESSAGE_NOTE_ON MIDI_MESSAGE_NONE
             blank_message blank_message);
      [|reflexivity].
    apply reachable_init.
  - apply (Hguard (mk_parser MIDI_MESSAGE_NOTE_ON 0 MIDI_CHANNEL_NONE
                     60 61 2) blank_message 62);
      [discriminate | discriminate].
Defined.


(** ** Bytes the grammar cannot use *)

(** C8. In any parser state an undefined status byte (0xF4, 0xF5, 0xF9,
    0xFD) completes nothing and leaves the parser and the message as
    they were.  A data byte that arrives while the pending kind requires
    no data byte (None, System Exclusive, or any other such kind)
    completes nothing and leaves the message as it was; it leaves the
    parser as it was whenever the count is below the buffer size, which
    is the case in every reachable state, and otherwise changes nothing
    but the count, reset to 0.  A whole stream of such data bytes is
    ignored in the same way, the parser staying as it was. *)
Theorem unusable_bytes_are_ignored :
  (forall (p : midi_parser_t) (m : midi_message_t) (byte : N),
      In byte undefined_status_bytes ->
      decode p byte m = Some (MIDI_MESSAGE_NONE, p, m)) /\
  (forall (p : midi_parser_t) (m : midi_message_t) (byte : N),
      byte <= 127 ->
      data_bytes_required (p_message_type p) = 0 ->
      (reachable p -> decode p byte m = Some (MIDI_MESSAGE_NONE, p, m)) /\
      (p_byte_count p < MIDI_BUFFER_SIZE ->
       decode p byte m = Some (MIDI_MESSAGE_NONE, p, m)) /\
      (MIDI_BUFFER_SIZE <= p_byte_count p ->
       decode p byte m =
         Some (MIDI_MESSAGE_NONE, set_p_byte_count 0 p, m)) /\
      (forall stream : list N,
          p_byte_count p < MIDI_BUFFER_SIZE ->
          Forall (fun data => data <= 127) stream ->
          feed p m stream =
            Some (map (fun _ => (MIDI_MESSAGE_NONE, m)) stream, p, m))).
Proof.
  split.
  - intros p m byte Hin. destruct p as [mt ch ach b0 b1 cnt].
    cbn in Hin.
    repeat (destruct Hin as [<-|Hin]; [reflexivity|]). contradiction.
  - intros p m byte Hbyte Hnone.
    rewrite (decode_unexpected_data_byte p m byte Hbyte Hnone).
    assert (Hsmall : p_byte_count p < MIDI_BUFFER_SIZE ->
                     (MIDI_BUFFER_SIZE <=? p_byte_count p) = false)
      by (intros Hlt; apply N.leb_gt; exact Hlt).
    split; [|split; [|split]].
    + intros Hreach.
      destruct (reachable_count_bound p Hreach) as [_ Hcount].
      rewrite Hsmall by bounds. reflexivity.
    + intros Hlt. rewrite (Hsmall Hlt). reflexivity.
    + intros Hfull. apply N.leb_le in Hfull. rewrite Hfull. reflexivity.
    + intros stream Hlt Hstream.
      apply (feed_ignored p m (fun data => data <= 127)); [|exact Hstream].
      intros data Hdata.
      rewrite (decode_unexpected_data_byte p m data Hdata Hnone).
      rewrite (Hsmall Hlt). reflexivity.
Qed.

Lemma unusable_bytes_are_ignored_witness :
  decode (mk_parser MIDI_MESSAGE_NOTE_ON 0 MIDI_CHANNEL_NONE 60 0 1) 0xF9
    blank_message =
    Some (MIDI_MESSAGE_NONE,
          mk_parser MIDI_MESSAGE_NOTE_ON 0 MIDI_CHANNEL_NONE 60 0 1,
          blank_message) /\
  decode (mk_parser MIDI_MESSAGE_SYSTEM_EXCLUSIVE MIDI_CHANNEL_NONE
            MIDI_CHANNEL_NONE 0 0 0) 42 blank_message =
    Some (MIDI_MESSAGE_NONE,
          mk_parser MIDI_MESSAGE_SYSTEM_EXCLUSIVE MIDI_CHANNEL_NONE
            MIDI_CHANNEL_NONE 0 0 0,
          blank_message) /\
  decode (midi_parser_init (mk_parser 1 2 3 4 5 6)) 42 blank_message =
    Some (MIDI_MESSAGE_NONE, midi_parser_init (mk_parser 1 2 3 4 5 6),
          blank_message).
Proof.
  destruct unusable_bytes_are_ignored as [Hstatus Hdata].
  split; [|split].
  - apply (Hstatus (mk_parser MIDI_MESSAGE_NOTE_ON 0 MIDI_CHANNEL_NONE
                      60 0 1) blank_message 0xF9).
    cbn. tauto.
  - destruct (Hdata (mk_parser MIDI_MESSAGE_SYSTEM_EXCLUSIVE
                       MIDI_CHANNEL_NONE MIDI_CHANNEL_NONE 0 0 0)
                blank_message 42) as (_ & Hsmall & _);
      [discriminate | reflexivity |].
    apply Hsmall. reflexivity.
  - destruct (Hdata (midi_parser_init (mk_parser 1 2 3 4 5 6))
                blank_message 42) as (Hreach & _);
      [discriminate | reflexivity |].
    apply Hreach, reachable_init.
Defined.

(** ** Reset *)

(** C9. [midi_parser_reset] leaves exactly the state [midi_parser_init]
    leaves, whatever the parser held before: pending kind None, channel
    None, active channel None, buffer cleared, count 0.  Hence a parser
    reset at any point and a freshly initialized parser return the same
    results, call after call, on every byte sequence. *)
Theorem reset_is_init
    (p fresh : midi_parser_t) (m : midi_message_t) (bytes : list N) :
  midi_parser_reset p = midi_parser_init p /\
  midi_parser_reset p =
    mk_parser MIDI_MESSAGE_NONE MIDI_CHANNEL_NONE MIDI_CHANNEL_NONE 0 0 0 /\
  midi_parser_reset p = midi_parser_init fresh /\
  feed (midi_parser_reset p) m bytes = feed (midi_parser_init fresh) m bytes.
Proof.
  assert (Hsame : midi_parser_reset p = midi_parser_init fresh)
    by reflexivity.
  split; [reflexivity|]. split; [reflexivity|]. split; [exact Hsame|].
  rewrite Hsame. reflexivity.
Qed.

(** The state discarded by a reset has no influence: here a parser in
    the middle of a Note On. *)
Example reset_discards_partial_message :
  option_map fst
    (feed (midi_parser_reset
             (mk_parser MIDI_MESSAGE_NOTE_ON 2 5 60 0 1))
       blank_message [100; MIDI_MESSAGE_PROGRAM_CHANGE; 7]) =
  Some ([(MIDI_MESSAGE_NONE, blank_message);
         (MIDI_MESSAGE_NONE, blank_message);
         (MIDI_MESSAGE_PROGRAM_CHANGE,
          mk_message MIDI_MESSAGE_PROGRAM_CHANGE 0 0 0 0 0 0 0 7 0 0 0 0 0 0)],
        mk_parser MIDI_MESSAGE_PROGRAM_CHANGE 0 MIDI_CHANNEL_NONE 0 0 0).
Proof. vm_compute. reflexivity. Qed.

(** ** The active channel *)

(** The active channel has no influence on a call, and no call changes
    it. *)
Lemma decode_ignores_active_channel
    (p : midi_parser_t) (m : midi_message_t) (byte other : N) :
  match decode p byte m, decode (set_p_active_channel other p) byte m with
  | Some (k1, p1, m1), Some (k2, p2, m2) =>
      k1 = k2 /\ m1 = m2 /\
      p2 = set_p_active_channel other p1 /\
      p_active_channel p1 = p_active_channel p /\
      p_active_channel p2 = other
  | _, _ => False
  end.
Proof.
  destruct p as [mt ch ach b0 b1 cnt], m.
  exec_unfold. split_tests;
    match goal with
    | |- False => bounds
    | _ => repeat split
    end.
Qed.

(** C10. The active channel is a value that is stored and read back:
    reading after setting returns the value set, and setting changes no
    other field.  The decoder neither reads nor writes it: on two
    parsers that differ in the active channel only, a call on any byte
    returns the same kind and the same message and leaves two parsers
    that again differ in the active channel only, each with its own. *)
Theorem active_channel_is_pass_through
    (p : midi_parser_t) (m : midi_message_t) (byte channel other : N) :
  midi_parser_get_active_channel
    (midi_parser_set_active_channel p channel) = channel /\
  midi_parser_set_active_channel p channel =
    mk_parser (p_message_type p) (p_channel p) channel (p_buffer0 p)
      (p_buffer1 p) (p_byte_count p) /\
  match decode p byte m, decode (set_p_active_channel other p) byte m with
  | Some (k1, p1, m1), Some (k2, p2, m2) =>
      k1 = k2 /\ m1 = m2 /\
      p2 = set_p_active_channel other p1 /\
      p_active_channel p1 = p_active_channel p /\
      p_active_channel p2 = other
  | _, _ => False
  end.
Proof.
  split; [reflexivity|]. split; [reflexivity|].
  apply decode_ignores_active_channel.
Qed.

(** * Further properties of the decoder *)

(** ** What a call returns *)

(** Case analysis on every comparison left in the goal, replacing the
    variables the comparisons determine. *)
Ltac split_tests_subst :=
  repeat match goal with
    | |- context [N.eqb ?a ?b] => destruct (N.eqb_spec a b); try subst; cbn
    | |- context [N.leb ?a ?b] => destruct (N.leb_spec a b); cbn
    | |- context [N.ltb ?a ?b] => destruct (N.ltb_spec a b); cbn
    end.

(** X1. Whenever a call returns a kind other than None, the type stored
    in the message object is that kind; whenever it returns None, the
    message object is exactly as it was before the call. *)
Theorem returned_kind_matches_message
    (p p' : midi_parser_t) (m m' : midi_message_t) (byte kind : N) :
  decode p byte m = Some (kind, p', m') ->
  (kind <> MIDI_MESSAGE_NONE -> m_message_type m' = kind) /\
  (kind = MIDI_MESSAGE_NONE -> m' = m).
Proof.
  destruct p as [mt ch ach b0 b1 cnt], m.
  exec_unfold. split_tests; intros Hrun; try discriminate Hrun;
    injection Hrun as <- <- <-;
    (split;
     [ intros Hk; first [reflexivity | exfalso; apply Hk; reflexivity]
     | intros Hnone; first [reflexivity | subst; discriminate] ]).
Qed.

Lemma returned_kind_matches_message_witness :
  (MIDI_MESSAGE_PROGRAM_CHANGE <> MIDI_MESSAGE_NONE ->
   m_message_type
     (mk_message MIDI_MESSAGE_PROGRAM_CHANGE 2 0 0 0 0 0 0 7 0 0 0 0 0 0) =
     MIDI_MESSAGE_PROGRAM_CHANGE) /\
  (MIDI_MESSAGE_PROGRAM_CHANGE = MIDI_MESSAGE_NONE ->
   mk_message MIDI_MESSAGE_PROGRAM_CHANGE 2 0 0 0 0 0 0 7 0 0 0 0 0 0 =
     blank_message).
Proof.
  apply (returned_kind_matches_message
           (mk_parser MIDI_MESSAGE_PROGRAM_CHANGE 2 MIDI_CHANNEL_NONE 0 0 0)
           (mk_parser MIDI_MESSAGE_PROGRAM_CHANGE 2 MIDI_CHANNEL_NONE 0 0 0)
           blank_message
           (mk_message MIDI_MESSAGE_PROGRAM_CHANGE 2 0 0 0 0 0 0 7 0 0 0 0
              0 0)
           7 MIDI_MESSAGE_PROGRAM_CHANGE).
  reflexivity.
Defined.
(** X2. In any parser state, whatever the byte, the value a call returns
    is None or one of the twenty-seven message types the parser
    reports; the kinds 0xF4, 0xF5, 0xF9, 0xFD and the other numbers are
    never returned. *)
Theorem returned_kind_is_a_message_type
    (p p' : midi_parser_t) (m m' : midi_message_t) (byte kind : N) :
  decode p byte m = Some (kind, p', m') ->
  kind = MIDI_MESSAGE_NONE \/ In kind reported_kinds.
Proof.
  destruct p as [mt ch ach b0 b1 cnt], m.
  exec_unfold. split_tests_subst; intros Hrun; try discriminate Hrun;
    injection Hrun as <- <- <-;
    first [ left; reflexivity | right; cbn; tauto ].
Qed.

Lemma returned_kind_is_a_message_type_witness :
  MIDI_MESSAGE_ALL_NOTES_OFF = MIDI_MESSAGE_NONE \/
  In MIDI_MESSAGE_ALL_NOTES_OFF reported_kinds.
Proof.
  apply (returned_kind_is_a_message_type
           (mk_parser MIDI_MESSAGE_CONTROL_CHANGE 5 MIDI_CHANNEL_NONE
              123 0 1)
           (mk_parser MIDI_MESSAGE_CONTROL_CHANGE 5 MIDI_CHANNEL_NONE
              123 0 0)
           blank_message
           (mk_message MIDI_MESSAGE_ALL_NOTES_OFF 5 0 0 0 0 123 0 0 0 0 0 0
              0 0)
           0 MIDI_MESSAGE_ALL_NOTES_OFF).
  reflexivity.
Defined.

(** X3. What the message object holds before a call has no influence on
    the call: the value returned and the parser afterwards are the same,
    and when a message completes, its type, channel and payload are the
    same. *)
Theorem decode_ignores_message_contents
    (p : midi_parser_t) (m1 m2 : midi_message_t) (byte : N) :
  match decode p byte m1, decode p byte m2 with
  | Some (k1, p1, m1'), Some (k2, p2, m2') =>
      k1 = k2 /\ p1 = p2 /\
      (k1 <> MIDI_MESSAGE_NONE -> report (k1, m1') = report (k2, m2'))
  | _, _ => False
  end.
Proof.
  destruct p as [mt ch ach b0 b1 cnt], m1, m2.
  exec_unfold. unfold report, payload. exec_unfold.
  split_tests_subst;
    first [ solve [ repeat split; try reflexivity;
                    intros Hk; exfalso; apply Hk; reflexivity ]
          | bounds ].
Qed.
(** The channel of a status byte is a channel. *)
Lemma channel_mask_bound (byte : N) : N.land byte MIDI_CHANNEL_MASK <= 15.
Proof.
  change MIDI_CHANNEL_MASK with (N.ones 4). rewrite N.land_ones.
  pose proof (N.mod_upper_bound byte (2 ^ 4)) as H.
  change (2 ^ 4) with 16 in *. lia.
Qed.

Lemma decode_keeps_pending_kind
    (p p' : midi_parser_t) (m m' : midi_message_t) (byte kind : N) :
  In (p_message_type p) pending_kinds ->
  decode p byte m = Some (kind, p', m') ->
  In (p_message_type p') pending_kinds.
Proof.
  destruct p as [mt ch ach b0 b1 cnt], m. cbn [p_message_type].
  intros Hpending. exec_unfold.
  split_tests; intros Hrun; try discriminate Hrun;
    injection Hrun as <- <- <-; cbn [p_message_type];
    first [ exact Hpending | subst; cbn; tauto
          | match goal with
            | E : N.land _ _ = _ |- _ => rewrite E; cbn; tauto
            end ].
Qed.

Lemma decode_keeps_data_in_range
    (p p' : midi_parser_t) (m m' : midi_message_t) (byte kind : N) :
  p_buffer0 p <= 127 -> p_buffer1 p <= 127 ->
  (In (p_message_type p) channel_voice_kinds -> p_channel p <= 15) ->
  decode p byte m = Some (kind, p', m') ->
  p_buffer0 p' <= 127 /\ p_buffer1 p' <= 127 /\
  (In (p_message_type p') channel_voice_kinds -> p_channel p' <= 15).
Proof.
  destruct p as [mt ch ach b0 b1 cnt], m.
  cbn [p_message_type p_buffer0 p_buffer1 p_channel].
  intros H0 H1 Hch. exec_unfold.
  split_tests; intros Hrun; try discriminate Hrun;
    injection Hrun as <- <- <-;
    cbn [p_message_type p_buffer0 p_buffer1 p_channel];
    (split; [assumption | split; [assumption|]]);
    first [ exact Hch
          | intros _; apply channel_mask_bound
          | subst; cbn; intuition discriminate ].
Qed.

(** X4. In every parser state reachable from an initialized parser the
    pending kind is None, a channel voice kind, System Exclusive, MTC
    Quarter Frame, Song Position Pointer or Song Select: a System
    Real-Time kind, Tune Request, End of Exclusive or a Channel-Mode
    kind is never pending. *)
Theorem reachable_pending_kind (p : midi_parser_t) :
  reachable p -> In (p_message_type p) pending_kinds.
Proof.
  intros Hreach.
  induction Hreach as [p0 | p p' byte kind m m' _ IH Hrun].
  - cbn. tauto.
  - exact (decode_keeps_pending_kind p p' m m' byte kind IH Hrun).
Qed.

Lemma reachable_pending_kind_witness :
  In (p_message_type
        (mk_parser MIDI_MESSAGE_SYSTEM_EXCLUSIVE MIDI_CHANNEL_NONE
           MIDI_CHANNEL_NONE 0 0 0))
    pending_kinds.
Proof.
  apply reachable_pending_kind.
  apply (reachable_step (midi_parser_init (mk_parser 0 0 0 0 0 0)) _ MIDI_MESSAGE_SYSTEM_EXCLUSIVE
           MIDI_MESSAGE_SYSTEM_EXCLUSIVE blank_message
           (mk_message MIDI_MESSAGE_SYSTEM_EXCLUSIVE MIDI_CHANNEL_NONE
              0 0 0 0 0 0 0 0 0 0 0 0 0));
    [apply reachable_init | reflexivity].
Defined.

Lemma reachable_data_in_range (p : midi_parser_t) :
  reachable p ->
  p_buffer0 p <= 127 /\ p_buffer1 p <= 127 /\
  (In (p_message_type p) channel_voice_kinds -> p_channel p <= 15).
Proof.
  intros Hreach.
  induction Hreach as [p0 | p p' byte kind m m' _ (IH0 & IH1 & IHch) Hrun].
  - cbn. repeat split; try discriminate. intuition discriminate.
  - exact (decode_keeps_data_in_range p p' m m' byte kind IH0 IH1 IHch Hrun).
Qed.

(** The two nibbles of a data byte. *)
Lemma mtc_nibble_bounds (byte : N) :
  byte <= 127 ->
  N.shiftr byte 4 <= 7 /\ N.land byte MIDI_LSN_MASK <= 15.
Proof.
  intros H.
  pose (ok := fun b =>
          (N.shiftr b 4 <=? 7) && (N.land b MIDI_LSN_MASK <=? 15)).
  assert (Hok : ok byte = true).
  { apply (forall_below ok 128); [vm_compute; reflexivity|].
    change (N.of_nat 128) with 128. lia. }
  apply andb_prop in Hok as [Hh Hl].
  apply N.leb_le in Hh. apply N.leb_le in Hl. auto.
Qed.

(** X5. Every message completed from a reachable parser state is within
    the ranges of MIDI: the members of its payload are at most 127
    (16383 for Pitch Bend and Song Position Pointer), its channel is at
    most 15 when it is a channel voice or Channel-Mode message and is
    None otherwise, a message reported as Note On has a velocity of at
    least 1, and an MTC Quarter Frame has a type of at most 7 and a
    value of at most 15. *)
Theorem completed_message_in_range
    (p p' : midi_parser_t) (m m' : midi_message_t) (byte kind : N) :
  reachable p ->
  decode p byte m = Some (kind, p', m') ->
  kind <> MIDI_MESSAGE_NONE ->
  Forall (fun value => value <= payload_bound kind) (payload kind m') /\
  (if one_of kind channel_message_kinds
   then m_channel m' <= 15
   else m_channel m' = MIDI_CHANNEL_NONE) /\
  (kind = MIDI_MESSAGE_NOTE_ON -> 1 <= velocity m') /\
  (kind = MIDI_MESSAGE_MTC_QUARTER_FRAME ->
   mtc_msg_type m' <= 7 /\ mtc_values m' <= 15).
Proof.
  intros Hreach.
  destruct (reachable_data_in_range p Hreach) as (H0 & H1 & Hch).
  destruct (reachable_count_bound p Hreach) as [_ Hcount].
  clear Hreach. revert H0 H1 Hch Hcount.
  destruct p as [mt ch ach b0 b1 cnt], m.
  cbn [p_message_type p_buffer0 p_buffer1 p_channel p_byte_count].
  intros H0 H1 Hch Hcount. exec_unfold.
  match goal with
  | |- _ -> ?Q => remember Q as post eqn:Epost
  end.
  split_tests; intros Hrun; try discriminate Hrun;
    injection Hrun as <- <- <-; subst; intros Hkind;
    try (exfalso; apply Hkind; reflexivity);
    try (assert (Hc : ch <= 15) by (apply Hch; cbn; tauto));
    clear Hch; unfold payload, payload_bound, one_of; cbn;
    rewrite ?combine_two_data_bytes by assumption;
    repeat first [ apply Forall_cons | apply Forall_nil | split ];
    first [ assumption | reflexivity | intros; discriminate
          | destruct (mtc_nibble_bounds byte H) as [Hhigh Hlow];
            first [ exact Hhigh | exact Hlow
                  | apply (N.le_trans _ 7); [exact Hhigh | discriminate]
                  | apply (N.le_trans _ 15); [exact Hlow | discriminate] ]
          | bounds ].
Qed.

Lemma completed_message_in_range_witness :
  Forall (fun value => value <= payload_bound MIDI_MESSAGE_PROGRAM_CHANGE)
    (payload MIDI_MESSAGE_PROGRAM_CHANGE
       (mk_message MIDI_MESSAGE_PROGRAM_CHANGE 2 0 0 0 0 0 0 7 0 0 0 0 0 0))
  /\
  (if one_of MIDI_MESSAGE_PROGRAM_CHANGE channel_message_kinds
   then
     m_channel
       (mk_message MIDI_MESSAGE_PROGRAM_CHANGE 2 0 0 0 0 0 0 7 0 0 0 0 0 0)
       <= 15
   else
     m_channel
       (mk_message MIDI_MESSAGE_PROGRAM_CHANGE 2 0 0 0 0 0 0 7 0 0 0 0 0 0)
       = MIDI_CHANNEL_NONE).
Proof.
  destruct (completed_message_in_range
              (mk_parser MIDI_MESSAGE_PROGRAM_CHANGE 2 MIDI_CHANNEL_NONE
                 0 0 0)
              (mk_parser MIDI_MESSAGE_PROGRAM_CHANGE 2 MIDI_CHANNEL_NONE
                 0 0 0)
              blank_message
              (mk_message MIDI_MESSAGE_PROGRAM_CHANGE 2 0 0 0 0 0 0 7 0 0 0
                 0 0 0)
              7 MIDI_MESSAGE_PROGRAM_CHANGE)
    as (Hpayload & Hchannel & _).
  - apply (reachable_step (midi_parser_init (mk_parser 0 0 0 0 0 0)) _ (N.lor MIDI_MESSAGE_PROGRAM_CHANGE 2)
             MIDI_MESSAGE_NONE blank_message blank_message);
      [apply reachable_init | reflexivity].
  - reflexivity.
  - discriminate.
  - split; assumption.
Defined.

(** A status byte of eight bits is 128 plus a number below 128. *)
Lemma status_byte_cases (byte : N) :
  128 <= byte <= 255 -> exists k, byte = 128 + k /\ In k (below 128).
Proof.
  intros H. exists (byte - 128). split; [lia|].
  apply below_complete. change (N.of_nat 128) with 128. lia.
Qed.

(** X6. In any parser state a status byte (128 to 255) returns itself
    when it is 0xF0, 0xF6, 0xF7 or a System Real-Time byte, and None
    otherwise; it never changes the buffer or the active channel; it
    leaves the whole parser as it was when it is a real-time or an
    undefined byte and resets the count to 0 otherwise; and the message
    object gets the channel None when a message is returned and is
    untouched otherwise. *)
Theorem status_byte_result
    (p : midi_parser_t) (m : midi_message_t) (byte : N) :
  128 <= byte <= 255 ->
  exists p' m',
    decode p byte m =
      Some ((if one_of byte single_byte_messages
             then byte else MIDI_MESSAGE_NONE), p', m') /\
    p_buffer0 p' = p_buffer0 p /\ p_buffer1 p' = p_buffer1 p /\
    p_active_channel p' = p_active_channel p /\
    (if one_of byte interrupting_bytes
     then p' = p
     else p_byte_count p' = 0) /\
    (if one_of byte single_byte_messages
     then m_channel m' = MIDI_CHANNEL_NONE
     else m' = m).
Proof.
  intros Hbyte.
  destruct (status_byte_cases byte Hbyte) as (k & -> & Hin).
  destruct p as [mt ch ach b0 b1 cnt], m.
  vm_compute in Hin.
  repeat (destruct Hin as [<-|Hin];
          [do 2 eexists; (split; [reflexivity|]); repeat split|]).
  contradiction.
Qed.

Lemma status_byte_result_witness :
  exists p' m',
    decode (mk_parser MIDI_MESSAGE_NOTE_ON 0 MIDI_CHANNEL_NONE 60 0 1)
      MIDI_MESSAGE_TUNE_REQUEST blank_message =
      Some (MIDI_MESSAGE_TUNE_REQUEST, p', m') /\
    p_buffer0 p' = 60 /\ p_byte_count p' = 0.
Proof.
  destruct (status_byte_result
              (mk_parser MIDI_MESSAGE_NOTE_ON 0 MIDI_CHANNEL_NONE 60 0 1)
              blank_message MIDI_MESSAGE_TUNE_REQUEST)
    as (p' & m' & Hrun & Hb0 & _ & _ & Hcount & _).
  - split; discriminate.
  - exists p', m'. repeat split; assumption.
Defined.

(** X7. In any parser state, with whatever message pending or partly
    accumulated, a status byte from 128 to 239 completes nothing and
    makes the pending kind the high nibble of the byte (16 times the
    quotient by 16, a channel voice kind), the channel its low nibble,
    and the count 0; buffer, active channel and message object are
    untouched. *)
Theorem voice_status_byte_sets_running_status
    (p : midi_parser_t) (m : midi_message_t) (byte : N) :
  128 <= byte <= 239 ->
  decode p byte m =
    Some (MIDI_MESSAGE_NONE,
          mk_parser (16 * (byte / 16)) (byte mod 16) (p_active_channel p)
            (p_buffer0 p) (p_buffer1 p) 0,
          m) /\
  In (16 * (byte / 16)) channel_voice_kinds /\
  byte mod 16 <= 15.
Proof.
  intros Hbyte.
  destruct (status_byte_cases byte) as (k & -> & Hin); [lia|].
  assert (Hk : k < 112) by lia. clear Hbyte.
  destruct p as [mt ch ach b0 b1 cnt].
  vm_compute in Hin.
  repeat (destruct Hin as [<-|Hin];
          [first [ discriminate Hk
                 | repeat split; try discriminate; cbn; tauto ]|]).
  contradiction.
Qed.

Lemma voice_status_byte_sets_running_status_witness :
  decode (mk_parser MIDI_MESSAGE_NOTE_ON 0 MIDI_CHANNEL_NONE 60 0 1) 0xC5
    blank_message =
    Some (MIDI_MESSAGE_NONE,
          mk_parser MIDI_MESSAGE_PROGRAM_CHANGE 5 MIDI_CHANNEL_NONE 60 0 0,
          blank_message).
Proof.
  destruct (voice_status_byte_sets_running_status
              (mk_parser MIDI_MESSAGE_NOTE_ON 0 MIDI_CHANNEL_NONE 60 0 1)
              blank_message 0xC5) as (Hrun & _).
  - split; discriminate.
  - exact Hrun.
Defined.

(** ** Whole messages in a stream *)

(** A completed channel voice message is never reported as None. *)
Lemma completed_kind_is_reported (kind d1 d2 : N) :
  In kind two_byte_voice_kinds ->
  (completed_kind kind d1 d2 =? MIDI_MESSAGE_NONE) = false.
Proof.
  intros Hkind. cbn in Hkind.
  unfold completed_kind, note_on_kind, control_change_kind.
  repeat (destruct Hkind as [<-|Hkind];
          [cbn;
           repeat match goal with
             | |- context [if ?t then _ else _] => destruct t
             end;
           reflexivity|]).
  contradiction.
Qed.

(** The two calls that decode the two data bytes of a channel voice
    message, from a count of 0. *)
Lemma two_data_bytes_complete
    (kind ch ach b0 b1 d1 d2 : N) (m : midi_message_t) :
  In kind two_byte_voice_kinds -> d1 <= 127 -> d2 <= 127 ->
  exists m',
    decode (mk_parser kind ch ach b0 b1 0) d1 m =
      Some (MIDI_MESSAGE_NONE, mk_parser kind ch ach d1 b1 1, m) /\
    decode (mk_parser kind ch ach d1 b1 1) d2 m =
      Some (completed_kind kind d1 d2, mk_parser kind ch ach d1 d2 0, m') /\
    report (completed_kind kind d1 d2, m') =
      (completed_kind kind d1 d2, completed_kind kind d1 d2, ch,
       two_byte_payload kind d1 d2).
Proof.
  intros Hkind H1 H2. destruct m.
  pose proof (combine_two_data_bytes d1 d2 H1 H2) as Hvalue.
  rewrite !decode_data_byte by assumption.
  cbn in Hkind.
  repeat (destruct Hkind as [<-|Hkind];
          [ unfold completed_kind, note_on_kind, control_change_kind,
              two_byte_payload, report, payload;
            exec_unfold; rewrite !data_byte_in_range by assumption;
            rewrite ?Hvalue; cbn; rewrite ?Hvalue;
            split_tests_subst;
            first [ solve [eexists; repeat split]
                  | exfalso;
                    match goal with
                    | Hn : _ <> _ |- _ => apply Hn; reflexivity
                    end ] |]).
  contradiction.
Qed.

(** The completed calls of a feeding loop, call by call. *)
Lemma completed_none (m : midi_message_t)
    (results : list (N * midi_message_t)) :
  completed ((MIDI_MESSAGE_NONE, m) :: results) = completed results.
Proof. reflexivity. Qed.

Lemma completed_some (kind : N) (m : midi_message_t)
    (results : list (N * midi_message_t)) :
  (kind =? MIDI_MESSAGE_NONE) = false ->
  completed ((kind, m) :: results) = (kind, m) :: completed results.
Proof. intros Hkind. unfold completed. cbn. rewrite Hkind. reflexivity. Qed.

(** Any number of data byte pairs after the status byte. *)
Lemma feed_data_pairs (kind ch ach : N) (pairs : list (N * N)) :
  In kind two_byte_voice_kinds ->
  Forall (fun pair => fst pair <= 127 /\ snd pair <= 127) pairs ->
  forall (b0 b1 : N) (m : midi_message_t),
  exists results b0' b1' m',
    feed (mk_parser kind ch ach b0 b1 0) m (data_pairs pairs) =
      Some (results, mk_parser kind ch ach b0' b1' 0, m') /\
    map report (completed results) = map (expected_report kind ch) pairs /\
    length results = (2 * length pairs)%nat.
Proof.
  intros Hkind Hpairs.
  induction Hpairs as [|[d1 d2] rest [H1 H2] _ IH]; intros b0 b1 m.
  - exists [], b0, b1, m. repeat split.
  - cbn [fst snd] in H1, H2.
    destruct (two_data_bytes_complete kind ch ach b0 b1 d1 d2 m Hkind H1 H2)
      as (m1 & Hfirst & Hsecond & Hreport).
    destruct (IH d1 d2 m1) as (results & b0' & b1' & m' & Hrest & Hmap & Hlen).
    exists ((MIDI_MESSAGE_NONE, m) :: (completed_kind kind d1 d2, m1)
              :: results), b0', b1', m'.
    split; [|split].
    + change (data_pairs ((d1, d2) :: rest))
        with (d1 :: d2 :: data_pairs rest).
      rewrite (feed_step _ _ _ _ _ _ _ Hfirst).
      rewrite (feed_step _ _ _ _ _ _ _ Hsecond).
      rewrite Hrest. reflexivity.
    + rewrite completed_none.
      rewrite (completed_some _ _ _ (completed_kind_is_reported kind d1 d2 Hkind)).
      cbn [map]. rewrite Hmap, Hreport. reflexivity.
    + cbn [length]. rewrite Hlen. lia.
Qed.

Lemma feed_status_and_pairs
    (p : midi_parser_t) (m : midi_message_t) (kind ch : N)
    (pairs : list (N * N)) :
  In kind two_byte_voice_kinds ->
  ch <= 15 ->
  Forall (fun pair => fst pair <= 127 /\ snd pair <= 127) pairs ->
  exists results p' m',
    feed p m (N.lor kind ch :: data_pairs pairs) = Some (results, p', m') /\
    map report (completed results) = map (expected_report kind ch) pairs /\
    length results = (1 + 2 * length pairs)%nat /\
    p_message_type p' = kind /\ p_channel p' = ch /\ p_byte_count p' = 0 /\
    p_active_channel p' = p_active_channel p.
Proof.
  intros Hkind Hch Hpairs.
  assert (Hvoice : In kind channel_voice_kinds).
  { cbn in Hkind |- *. tauto. }
  destruct (feed_data_pairs kind ch (p_active_channel p) pairs Hkind Hpairs
              (p_buffer0 p) (p_buffer1 p) m)
    as (results & b0' & b1' & m' & Hrest & Hmap & Hlen).
  exists ((MIDI_MESSAGE_NONE, m) :: results),
    (mk_parser kind ch (p_active_channel p) b0' b1' 0), m'.
  split; [|split; [|split]].
  - rewrite (feed_step _ _ _ _ _ _ _ (decode_voice_status p m kind ch Hvoice Hch)).
    rewrite Hrest. reflexivity.
  - exact Hmap.
  - cbn [length]. rewrite Hlen. reflexivity.
  - repeat split.
Qed.

(** X8. From any parser state, one status byte of a channel voice kind
    with two data bytes followed by any number of data byte pairs
    completes exactly one message per pair, in order, on the channel of
    the status byte, with the payload of the pair (Note On reported as
    Note Off at velocity 0, Control Change as its Channel-Mode kind for
    the controllers 120 to 127, Pitch Bend as one fourteen-bit value),
    and leaves the kind pending with a count of 0. *)
Theorem running_status_any_number_of_messages
    (p : midi_parser_t) (m : midi_message_t) (kind ch : N)
    (pairs : list (N * N)) :
  In kind two_byte_voice_kinds ->
  ch <= 15 ->
  Forall (fun pair => fst pair <= 127 /\ snd pair <= 127) pairs ->
  exists results p' m',
    feed p m (N.lor kind ch :: data_pairs pairs) = Some (results, p', m') /\
    map report (completed results) = map (expected_report kind ch) pairs /\
    length results = (1 + 2 * length pairs)%nat /\
    p_message_type p' = kind /\ p_channel p' = ch /\ p_byte_count p' = 0 /\
    p_active_channel p' = p_active_channel p.
Proof. exact (feed_status_and_pairs p m kind ch pairs). Qed.

Lemma running_status_any_number_of_messages_witness :
  exists results p' m',
    feed (midi_parser_init (mk_parser 0 0 0 0 0 0)) blank_message
      (N.lor MIDI_MESSAGE_NOTE_ON 2 :: data_pairs [(60, 100); (60, 0)]) =
      Some (results, p', m') /\
    map report (completed results) =
      [(MIDI_MESSAGE_NOTE_ON, MIDI_MESSAGE_NOTE_ON, 2, [60; 100]);
       (MIDI_MESSAGE_NOTE_OFF, MIDI_MESSAGE_NOTE_OFF, 2, [60; 0])] /\
    p_message_type p' = MIDI_MESSAGE_NOTE_ON.
Proof.
  destruct (running_status_any_number_of_messages (midi_parser_init (mk_parser 0 0 0 0 0 0)) blank_message
              MIDI_MESSAGE_NOTE_ON 2 [(60, 100); (60, 0)])
    as (results & p' & m' & Hrun & Hmap & _ & Hkind & _).
  - cbn. tauto.
  - discriminate.
  - repeat constructor; discriminate.
  - exists results, p', m'. repeat split; assumption.
Defined.

(** The call that decodes the data byte of a Program Change or a
    Channel Pressure. *)
Lemma one_data_byte_completes
    (kind ch ach b0 b1 d : N) (m : midi_message_t) :
  In kind one_byte_voice_kinds -> d <= 127 ->
  exists m',
    decode (mk_parser kind ch ach b0 b1 0) d m =
      Some (kind, mk_parser kind ch ach b0 b1 0, m') /\
    report (kind, m') = (kind, kind, ch, [d]).
Proof.
  intros Hkind Hd. destruct m.
  rewrite decode_data_byte by assumption. cbn in Hkind.
  repeat (destruct Hkind as [<-|Hkind];
          [ exec_unfold; rewrite data_byte_in_range by assumption;
            eexists; split; reflexivity |]).
  contradiction.
Qed.

(** X9. From any parser state, a Program Change or Channel Pressure
    status byte followed by any number of data bytes completes one
    message per data byte, in order, on the channel of the status byte
    with that byte as payload, and never touches the buffer. *)
Theorem one_byte_running_status
    (p : midi_parser_t) (m : midi_message_t) (kind ch : N)
    (data : list N) :
  In kind one_byte_voice_kinds ->
  ch <= 15 ->
  Forall (fun d => d <= 127) data ->
  exists results m',
    feed p m (N.lor kind ch :: data) =
      Some ((MIDI_MESSAGE_NONE, m) :: results,
            mk_parser kind ch (p_active_channel p) (p_buffer0 p)
              (p_buffer1 p) 0,
            m') /\
    map report results = map (fun d => (kind, kind, ch, [d])) data.
Proof.
  intros Hkind Hch Hdata.
  assert (Hvoice : In kind channel_voice_kinds).
  { cbn in Hkind |- *. tauto. }
  rewrite (feed_step _ _ _ _ _ _ _ (decode_voice_status p m kind ch Hvoice Hch)).
  generalize m. clear Hvoice.
  induction Hdata as [|d rest Hd _ IH]; intros m0.
  - exists [], m0. split; reflexivity.
  - destruct (one_data_byte_completes kind ch (p_active_channel p)
                (p_buffer0 p) (p_buffer1 p) d m0 Hkind Hd)
      as (m1 & Hrun & Hreport).
    destruct (IH m1) as (results & m' & Hrest & Hmap).
    exists ((kind, m1) :: results), m'.
    rewrite (feed_step _ _ _ _ _ _ _ Hrun).
    destruct (feed _ m1 rest) as [[[rs q] mq]|]; [|discriminate Hrest].
    injection Hrest as <- <- <-.
    split; [reflexivity|]. cbn [map]. rewrite Hmap, Hreport. reflexivity.
Qed.

Lemma one_byte_running_status_witness :
  exists results m',
    feed (midi_parser_init (mk_parser 0 0 0 0 0 0)) blank_message (N.lor MIDI_MESSAGE_CHANNEL_PRESSURE 9 :: [1; 2; 3])
    = Some ((MIDI_MESSAGE_NONE, blank_message) :: results,
            mk_parser MIDI_MESSAGE_CHANNEL_PRESSURE 9 MIDI_CHANNEL_NONE
              0 0 0,
            m') /\
    map report results =
      [(MIDI_MESSAGE_CHANNEL_PRESSURE, MIDI_MESSAGE_CHANNEL_PRESSURE, 9, [1]);
       (MIDI_MESSAGE_CHANNEL_PRESSURE, MIDI_MESSAGE_CHANNEL_PRESSURE, 9, [2]);
       (MIDI_MESSAGE_CHANNEL_PRESSURE, MIDI_MESSAGE_CHANNEL_PRESSURE, 9, [3])].
Proof.
  apply (one_byte_running_status (midi_parser_init (mk_parser 0 0 0 0 0 0)) blank_message
           MIDI_MESSAGE_CHANNEL_PRESSURE 9 [1; 2; 3]).
  - cbn. tauto.
  - discriminate.
  - repeat constructor; discriminate.
Defined.

(** ** System Common messages and System Exclusive *)

(** The nibbles [byte >> 4] and [byte & 0x0F] as quotient and
    remainder. *)
Lemma mtc_nibbles (byte : N) :
  N.shiftr byte 4 = byte / 16 /\ N.land byte MIDI_LSN_MASK = byte mod 16.
Proof.
  split.
  - rewrite N.shiftr_div_pow2. reflexivity.
  - change MIDI_LSN_MASK with (N.ones 4). rewrite N.land_ones. reflexivity.
Qed.

(** X10. From any parser state, 0xF1 and a data byte [d] complete one MTC
    Quarter Frame with channel None, type [d / 16] and value
    [d mod 16], from which [d] is recovered; the running status is then
    cleared, so the next data byte is ignored. *)
Theorem mtc_quarter_frame_message
    (p : midi_parser_t) (m : midi_message_t) (d : N) :
  d <= 127 ->
  let idle := mk_parser MIDI_MESSAGE_NONE MIDI_CHANNEL_NONE
                (p_active_channel p) (p_buffer0 p) (p_buffer1 p) 0 in
  exists m',
    feed p m [MIDI_MESSAGE_MTC_QUARTER_FRAME; d] =
      Some ([(MIDI_MESSAGE_NONE, m); (MIDI_MESSAGE_MTC_QUARTER_FRAME, m')],
            idle, m') /\
    report (MIDI_MESSAGE_MTC_QUARTER_FRAME, m') =
      (MIDI_MESSAGE_MTC_QUARTER_FRAME, MIDI_MESSAGE_MTC_QUARTER_FRAME,
       MIDI_CHANNEL_NONE, [d / 16; d mod 16]) /\
    16 * mtc_msg_type m' + mtc_values m' = d /\
    mtc_msg_type m' <= 7 /\ mtc_values m' <= 15 /\
    forall next : N,
      next <= 127 -> decode idle next m' = Some (MIDI_MESSAGE_NONE, idle, m').
Proof.
  intros Hd idle.
  destruct (mtc_nibbles d) as [Hhigh Hlow].
  destruct (mtc_nibble_bounds d Hd) as [Hh Hl].
  destruct p as [mt ch ach b0 b1 cnt], m.
  eexists. split; [|split; [|split; [|split; [|split]]]].
  - erewrite feed_step by reflexivity.
    erewrite feed_step
      by (rewrite decode_data_byte by assumption; exec_unfold;
          rewrite data_byte_in_range by assumption; reflexivity).
    reflexivity.
  - unfold report, payload. cbn - [N.shiftr N.land N.div N.modulo].
    rewrite Hhigh, Hlow. reflexivity.
  - cbn - [N.shiftr N.land N.div N.modulo N.mul]. rewrite Hhigh, Hlow.
    symmetry. apply N.div_mod. discriminate.
  - exact Hh.
  - exact Hl.
  - intros next Hnext.
    rewrite (decode_unexpected_data_byte idle _ next Hnext eq_refl).
    reflexivity.
Qed.

Lemma mtc_quarter_frame_message_witness :
  exists m',
    feed (midi_parser_init (mk_parser 0 0 0 0 0 0)) blank_message [MIDI_MESSAGE_MTC_QUARTER_FRAME; 0x35] =
      Some ([(MIDI_MESSAGE_NONE, blank_message);
             (MIDI_MESSAGE_MTC_QUARTER_FRAME, m')],
            (midi_parser_init (mk_parser 0 0 0 0 0 0)), m') /\
    report (MIDI_MESSAGE_MTC_QUARTER_FRAME, m') =
      (MIDI_MESSAGE_MTC_QUARTER_FRAME, MIDI_MESSAGE_MTC_QUARTER_FRAME,
       MIDI_CHANNEL_NONE, [3; 5]).
Proof.
  destruct (mtc_quarter_frame_message (midi_parser_init (mk_parser 0 0 0 0 0 0)) blank_message 0x35)
    as (m' & Hrun & Hreport & _).
  - discriminate.
  - exists m'. split; assumption.
Defined.

(** X11. From any parser state, 0xF2 and two data bytes complete one Song
    Position Pointer of value [high * 128 + low], and 0xF3 and one data
    byte complete one Song Select of that song, both with channel None;
    either way the running status is then cleared, so the next data byte
    is ignored. *)
Theorem song_messages_clear_running_status
    (p : midi_parser_t) (m : midi_message_t) (low high song : N) :
  low <= 127 -> high <= 127 -> song <= 127 ->
  (let idle := mk_parser MIDI_MESSAGE_NONE MIDI_CHANNEL_NONE
                 (p_active_channel p) low high 0 in
   exists ma m',
     feed p m [MIDI_MESSAGE_SONG_POSITION_POINTER; low; high] =
       Some ([(MIDI_MESSAGE_NONE, m); (MIDI_MESSAGE_NONE, ma);
              (MIDI_MESSAGE_SONG_POSITION_POINTER, m')], idle, m') /\
     report (MIDI_MESSAGE_SONG_POSITION_POINTER, m') =
       (MIDI_MESSAGE_SONG_POSITION_POINTER,
        MIDI_MESSAGE_SONG_POSITION_POINTER, MIDI_CHANNEL_NONE,
        [high * 128 + low]) /\
     forall next : N,
       next <= 127 ->
       decode idle next m' = Some (MIDI_MESSAGE_NONE, idle, m')) /\
  (let idle := mk_parser MIDI_MESSAGE_NONE MIDI_CHANNEL_NONE
                 (p_active_channel p) (p_buffer0 p) (p_buffer1 p) 0 in
   exists m',
     feed p m [MIDI_MESSAGE_SONG_SELECT; song] =
       Some ([(MIDI_MESSAGE_NONE, m); (MIDI_MESSAGE_SONG_SELECT, m')],
             idle, m') /\
     report (MIDI_MESSAGE_SONG_SELECT, m') =
       (MIDI_MESSAGE_SONG_SELECT, MIDI_MESSAGE_SONG_SELECT,
        MIDI_CHANNEL_NONE, [song]) /\
     forall next : N,
       next <= 127 ->
       decode idle next m' = Some (MIDI_MESSAGE_NONE, idle, m')).
Proof.
  intros Hlow Hhigh Hsong.
  pose proof (combine_two_data_bytes low high Hlow Hhigh) as Hvalue.
  destruct p as [mt ch ach b0 b1 cnt], m.
  split; intros idle.
  - do 2 eexists. split; [|split].
    + erewrite feed_step by reflexivity.
      do 2 (erewrite feed_step
              by (rewrite decode_data_byte by assumption; exec_unfold;
                  rewrite data_byte_in_range by assumption; reflexivity)).
      reflexivity.
    + unfold report, payload. cbn - [N.lor N.shiftl N.modulo N.mul N.add].
      rewrite Hvalue. reflexivity.
    + intros next Hnext.
      rewrite (decode_unexpected_data_byte idle _ next Hnext eq_refl).
      reflexivity.
  - eexists. split; [|split].
    + erewrite feed_step by reflexivity.
      erewrite feed_step
        by (rewrite decode_data_byte by assumption; exec_unfold;
            rewrite data_byte_in_range by assumption; reflexivity).
      reflexivity.
    + reflexivity.
    + intros next Hnext.
      rewrite (decode_unexpected_data_byte idle _ next Hnext eq_refl).
      reflexivity.
Qed.

Lemma song_messages_clear_running_status_witness :
  exists ma m',
    feed (midi_parser_init (mk_parser 0 0 0 0 0 0)) blank_message [MIDI_MESSAGE_SONG_POSITION_POINTER; 1; 2] =
      Some ([(MIDI_MESSAGE_NONE, blank_message); (MIDI_MESSAGE_NONE, ma);
             (MIDI_MESSAGE_SONG_POSITION_POINTER, m')],
            mk_parser MIDI_MESSAGE_NONE MIDI_CHANNEL_NONE MIDI_CHANNEL_NONE
              1 2 0,
            m') /\
    report (MIDI_MESSAGE_SONG_POSITION_POINTER, m') =
      (MIDI_MESSAGE_SONG_POSITION_POINTER,
       MIDI_MESSAGE_SONG_POSITION_POINTER, MIDI_CHANNEL_NONE, [257]).
Proof.
  destruct (song_messages_clear_running_status (midi_parser_init (mk_parser 0 0 0 0 0 0)) blank_message 1 2 3)
    as [(ma & m' & Hrun & Hreport & _) _]; try discriminate.
  exists ma, m'. split; assumption.
Defined.

(** Membership in a list of [switch] labels. *)
Lemma one_of_In (x : N) (labels : list N) :
  one_of x labels = true <-> In x labels.
Proof.
  unfold one_of. rewrite existsb_exists. split.
  - intros (y & Hy & Heq). apply N.eqb_eq in Heq. subst y. exact Hy.
  - intros Hx. exists x. split; [exact Hx | apply N.eqb_refl].
Qed.

(** Inside a System Exclusive message a data byte is dropped and a
    real-time byte is reported; the parser does not move. *)
Lemma sysex_body_byte (ch ach b0 b1 byte : N) (m : midi_message_t) :
  byte <= 127 \/ In byte realtime_bytes ->
  let inside := mk_parser MIDI_MESSAGE_SYSTEM_EXCLUSIVE ch ach b0 b1 0 in
  exists m',
    decode inside byte m =
      Some ((if byte <=? 127 then MIDI_MESSAGE_NONE else byte), inside, m').
Proof.
  intros [Hdata | Hrt] inside.
  - exists m. rewrite (decode_unexpected_data_byte inside m byte Hdata eq_refl).
    apply N.leb_le in Hdata. rewrite Hdata. reflexivity.
  - cbn in Hrt.
    repeat (destruct Hrt as [<-|Hrt]; [eexists; reflexivity|]).
    contradiction.
Qed.

Lemma sysex_body_stream (ch ach b0 b1 : N) (body : list N) :
  Forall (fun byte => byte <= 127 \/ In byte realtime_bytes) body ->
  forall m : midi_message_t,
  exists results m',
    feed (mk_parser MIDI_MESSAGE_SYSTEM_EXCLUSIVE ch ach b0 b1 0) m
      (body ++ [MIDI_MESSAGE_END_OF_EXCLUSIVE]) =
      Some (results,
            mk_parser MIDI_MESSAGE_NONE MIDI_CHANNEL_NONE ach b0 b1 0, m') /\
    map fst results =
      map (fun byte => if byte <=? 127 then MIDI_MESSAGE_NONE else byte) body
      ++ [MIDI_MESSAGE_END_OF_EXCLUSIVE].
Proof.
  intros Hbody.
  induction Hbody as [|byte rest Hbyte _ IH]; intros m.
  - do 2 eexists. split; reflexivity.
  - destruct (sysex_body_byte ch ach b0 b1 byte m Hbyte) as (m1 & Hrun).
    destruct (IH m1) as (results & m' & Hrest & Hkinds).
    exists ((if byte <=? 127 then MIDI_MESSAGE_NONE else byte, m1) :: results),
      m'.
    split.
    + cbn [app]. rewrite (feed_step _ _ _ _ _ _ _ Hrun), Hrest. reflexivity.
    + cbn [map fst app]. rewrite Hkinds. reflexivity.
Qed.

(** The status byte 0xF0 in any state. *)
Lemma decode_sysex_start (p : midi_parser_t) (m : midi_message_t) :
  decode p MIDI_MESSAGE_SYSTEM_EXCLUSIVE m =
    Some (MIDI_MESSAGE_SYSTEM_EXCLUSIVE,
          mk_parser MIDI_MESSAGE_SYSTEM_EXCLUSIVE (p_channel p)
            (p_active_channel p) (p_buffer0 p) (p_buffer1 p) 0,
          set_m_channel MIDI_CHANNEL_NONE
            (set_m_message_type MIDI_MESSAGE_SYSTEM_EXCLUSIVE m)).
Proof. destruct p. reflexivity. Qed.

(** X12. From any parser state, 0xF0, any body of data bytes and System
    Real-Time bytes, and 0xF7 return, byte by byte: System Exclusive,
    None for each data byte and its own kind for each real-time byte,
    End of Exclusive; afterwards nothing is pending and the buffer is
    as it was before the 0xF0. *)
Theorem system_exclusive_stream
    (p : midi_parser_t) (m : midi_message_t) (body : list N) :
  Forall (fun byte => byte <= 127 \/ In byte realtime_bytes) body ->
  exists results m',
    feed p m
      (MIDI_MESSAGE_SYSTEM_EXCLUSIVE :: body
         ++ [MIDI_MESSAGE_END_OF_EXCLUSIVE]) =
      Some (results,
            mk_parser MIDI_MESSAGE_NONE MIDI_CHANNEL_NONE
              (p_active_channel p) (p_buffer0 p) (p_buffer1 p) 0,
            m') /\
    map fst results =
      MIDI_MESSAGE_SYSTEM_EXCLUSIVE
        :: map (fun byte => if byte <=? 127 then MIDI_MESSAGE_NONE else byte)
             body
        ++ [MIDI_MESSAGE_END_OF_EXCLUSIVE].
Proof.
  intros Hbody.
  destruct (sysex_body_stream (p_channel p) (p_active_channel p)
              (p_buffer0 p) (p_buffer1 p) body Hbody
              (set_m_channel MIDI_CHANNEL_NONE
                 (set_m_message_type MIDI_MESSAGE_SYSTEM_EXCLUSIVE m)))
    as (results & m' & Hrest & Hkinds).
  eexists. exists m'. split.
  - rewrite (feed_step _ _ _ _ _ _ _ (decode_sysex_start p m)).
    rewrite Hrest. reflexivity.
  - cbn [map fst]. rewrite Hkinds. reflexivity.
Qed.

Lemma system_exclusive_stream_witness :
  exists results m',
    feed (midi_parser_init (mk_parser 0 0 0 0 0 0)) blank_message
      (MIDI_MESSAGE_SYSTEM_EXCLUSIVE
         :: [0x10; MIDI_MESSAGE_TIMING_CLOCK; 0x20]
         ++ [MIDI_MESSAGE_END_OF_EXCLUSIVE]) =
      Some (results, (midi_parser_init (mk_parser 0 0 0 0 0 0)), m') /\
    map fst results =
      [MIDI_MESSAGE_SYSTEM_EXCLUSIVE; MIDI_MESSAGE_NONE;
       MIDI_MESSAGE_TIMING_CLOCK; MIDI_MESSAGE_NONE;
       MIDI_MESSAGE_END_OF_EXCLUSIVE].
Proof.
  apply (system_exclusive_stream (midi_parser_init (mk_parser 0 0 0 0 0 0)) blank_message
           [0x10; MIDI_MESSAGE_TIMING_CLOCK; 0x20]).
  apply Forall_cons; [left; discriminate|].
  apply Forall_cons; [right; cbn; tauto|].
  apply Forall_cons; [left; discriminate|].
  apply Forall_nil.
Defined.

(** ** Interruptions *)

(** An interrupting byte leaves the parser and the union of the message
    as they are, and reports a real-time message or nothing. *)
Lemma decode_interrupting
    (p : midi_parser_t) (m : midi_message_t) (byte : N) :
  In byte interrupting_bytes ->
  exists kind m',
    decode p byte m = Some (kind, p, m') /\
    union_part m' = union_part m /\
    (kind = MIDI_MESSAGE_NONE \/ In kind realtime_bytes).
Proof.
  intros Hin. destruct p as [mt ch ach b0 b1 cnt], m. cbn in Hin.
  repeat (destruct Hin as [<-|Hin];
          [do 2 eexists; split; [reflexivity|]; split; [reflexivity|];
           cbn; tauto|]).
  contradiction.
Qed.

(** Only a real-time byte is reported as a real-time message. *)
Lemma realtime_kind_needs_realtime_byte
    (p p' : midi_parser_t) (m m' : midi_message_t) (byte kind : N) :
  one_of byte interrupting_bytes = false ->
  decode p byte m = Some (kind, p', m') ->
  one_of kind realtime_bytes = false.
Proof.
  destruct p as [mt ch ach b0 b1 cnt], m. intros Hbyte.
  exec_unfold.
  match goal with
  | |- _ -> ?Q => remember Q as post eqn:Epost
  end.
  split_tests; intros Hrun; try discriminate Hrun;
    injection Hrun as <- <- <-; subst;
    first [ reflexivity | discriminate Hbyte ].
Qed.

(** Two calls on message objects with the same union. *)
Lemma decode_same_union
    (p : midi_parser_t) (m1 m2 : midi_message_t) (byte : N) :
  union_part m1 = union_part m2 ->
  match decode p byte m1, decode p byte m2 with
  | Some (k1, p1, m1'), Some (k2, p2, m2') =>
      k1 = k2 /\ p1 = p2 /\ union_part m1' = union_part m2' /\
      (k1 <> MIDI_MESSAGE_NONE -> m1' = m2')
  | _, _ => False
  end.
Proof.
  destruct p as [mt ch ach b0 b1 cnt], m1, m2. intros Hunion.
  injection Hunion as -> -> -> -> -> -> -> -> -> -> -> -> ->.
  exec_unfold.
  split_tests;
    first [ solve [ repeat split; try reflexivity;
                    intros Hk; exfalso; apply Hk; reflexivity ]
          | bounds ].
Qed.

Lemma completed_non_realtime_skip (kind : N) (m : midi_message_t)
    (results : list (N * midi_message_t)) :
  kind = MIDI_MESSAGE_NONE \/ In kind realtime_bytes ->
  completed_non_realtime ((kind, m) :: results) =
    completed_non_realtime results.
Proof.
  intros [-> | Hrt]; [reflexivity|]. cbn in Hrt.
  repeat (destruct Hrt as [<-|Hrt]; [reflexivity|]). contradiction.
Qed.

Lemma completed_non_realtime_keep (kind : N) (m : midi_message_t)
    (results : list (N * midi_message_t)) :
  (kind =? MIDI_MESSAGE_NONE) = false ->
  one_of kind realtime_bytes = false ->
  completed_non_realtime ((kind, m) :: results) =
    (kind, m) :: completed_non_realtime results.
Proof.
  intros Hkind Hrt. unfold completed_non_realtime.
  rewrite (completed_some kind m results Hkind).
  cbn [filter fst]. rewrite Hrt. reflexivity.
Qed.

Lemma interruptions_are_transparent_from (bytes : list N) :
  forall (p : midi_parser_t) (m1 m2 : midi_message_t),
  union_part m1 = union_part m2 ->
  exists results results' p' m1' m2',
    feed p m1 bytes = Some (results, p', m1') /\
    feed p m2 (without_interruptions bytes) = Some (results', p', m2') /\
    map report (completed_non_realtime results) =
      map report (completed results').
Proof.
  induction bytes as [|byte rest IH]; intros p m1 m2 Hunion.
  - exists [], [], p, m1, m2. repeat split.
  - unfold without_interruptions. cbn [filter].
    fold (without_interruptions rest).
    destruct (one_of byte interrupting_bytes) eqn:Hbyte; cbn [negb].
    + apply one_of_In in Hbyte.
      destruct (decode_interrupting p m1 byte Hbyte)
        as (kind & m1a & Hrun & Hsame & Hkind).
      destruct (IH p m1a m2) as (rs & rs' & p' & m1' & m2' & H1 & H2 & Hmap).
      { rewrite Hsame. exact Hunion. }
      exists ((kind, m1a) :: rs), rs', p', m1', m2'.
      split; [|split].
      * rewrite (feed_step _ _ _ _ _ _ _ Hrun), H1. reflexivity.
      * exact H2.
      * rewrite (completed_non_realtime_skip kind m1a rs Hkind). exact Hmap.
    + pose proof (decode_same_union p m1 m2 byte Hunion) as Hstep.
      destruct (decode p byte m1) as [[[k1 p1] m1a]|] eqn:Hrun1;
        [|destruct (decode p byte m2) as [[[? ?] ?]|]; contradiction].
      destruct (decode p byte m2) as [[[k2 p2] m2a]|] eqn:Hrun2;
        [|contradiction].
      destruct Hstep as (<- & <- & Hsame & Hequal).
      destruct (IH p1 m1a m2a Hsame)
        as (rs & rs' & p' & m1' & m2' & H1 & H2 & Hmap).
      exists ((k1, m1a) :: rs), ((k1, m2a) :: rs'), p', m1', m2'.
      split; [|split].
      * rewrite (feed_step _ _ _ _ _ _ _ Hrun1), H1. reflexivity.
      * rewrite (feed_step _ _ _ _ _ _ _ Hrun2), H2. reflexivity.
      * destruct (N.eqb_spec k1 MIDI_MESSAGE_NONE) as [-> | Hk].
        -- rewrite completed_non_realtime_skip by (left; reflexivity).
           rewrite completed_none. exact Hmap.
        -- assert (Hkb : (k1 =? MIDI_MESSAGE_NONE) = false)
             by (apply N.eqb_neq; exact Hk).
           rewrite (completed_non_realtime_keep k1 m1a rs Hkb
                      (realtime_kind_needs_realtime_byte
                         p p1 m1 m1a byte k1 Hbyte Hrun1)).
           rewrite (completed_some k1 m2a rs' Hkb).
           cbn [map]. rewrite Hmap, (Hequal Hk). reflexivity.
Qed.

(** X13. System Real-Time and undefined status bytes are transparent in
    every stream from every state: removing them from the stream
    changes neither the final parser state nor the sequence of completed
    messages other than the real-time messages themselves (kind, type,
    channel and payload). *)
Theorem interruptions_are_transparent
    (p : midi_parser_t) (m : midi_message_t) (bytes : list N) :
  exists results results' p' m1 m2,
    feed p m bytes = Some (results, p', m1) /\
    feed p m (without_interruptions bytes) = Some (results', p', m2) /\
    map report (completed_non_realtime results) =
      map report (completed results').
Proof. apply interruptions_are_transparent_from. reflexivity. Qed.

(** ** Streams from any state *)

(** A feeding loop never reaches an undefined buffer access, and records
    one result per byte. *)
Lemma feed_defined (bytes : list N) :
  forall (p : midi_parser_t) (m : midi_message_t),
  exists results p' m',
    feed p m bytes = Some (results, p', m') /\
    length results = length bytes.
Proof.
  induction bytes as [|byte rest IH]; intros p m.
  - exists [], p, m. split; reflexivity.
  - destruct (decode_defined p byte m) as (kind & p1 & m1 & Hrun).
    destruct (IH p1 m1) as (results & p' & m' & Hrest & Hlen).
    exists ((kind, m1) :: results), p', m'.
    rewrite (feed_step _ _ _ _ _ _ _ Hrun), Hrest.
    split; [reflexivity|]. cbn [length]. rewrite Hlen. reflexivity.
Qed.

(** Feeding two streams one after the other. *)
Lemma feed_app (before after : list N) :
  forall (p p1 p2 : midi_parser_t) (m m1 m2 : midi_message_t)
         (results1 results2 : list (N * midi_message_t)),
  feed p m before = Some (results1, p1, m1) ->
  feed p1 m1 after = Some (results2, p2, m2) ->
  feed p m (before ++ after) = Some (results1 ++ results2, p2, m2).
Proof.
  induction before as [|byte rest IH];
    intros p p1 p2 m m1 m2 results1 results2 Hbefore Hafter.
  - injection Hbefore as <- <- <-. exact Hafter.
  - cbn [feed] in Hbefore. cbn [app feed].
    destruct (decode p byte m) as [[[kind q] mq]|]; [|discriminate Hbefore].
    destruct (feed q mq rest) as [[[rs q'] mq']|] eqn:Hrest;
      [|discriminate Hbefore].
    injection Hbefore as <- <- <-.
    rewrite (IH q q' p2 mq mq' m2 rs results2 Hrest Hafter). reflexivity.
Qed.

(** X14. Whatever bytes were fed before, from whatever state, a channel
    voice status byte resynchronizes the parser: the data byte pairs
    that follow it complete exactly the messages of X8, so a message
    left incomplete by the earlier bytes is abandoned without trace. *)
Theorem status_byte_resynchronizes
    (p : midi_parser_t) (m : midi_message_t) (before : list N)
    (kind ch : N) (pairs : list (N * N)) :
  In kind two_byte_voice_kinds ->
  ch <= 15 ->
  Forall (fun pair => fst pair <= 127 /\ snd pair <= 127) pairs ->
  exists results_before results_after p' m',
    feed p m (before ++ N.lor kind ch :: data_pairs pairs) =
      Some (results_before ++ results_after, p', m') /\
    length results_before = length before /\
    map report (completed results_after) =
      map (expected_report kind ch) pairs /\
    p_message_type p' = kind /\ p_channel p' = ch /\ p_byte_count p' = 0.
Proof.
  intros Hkind Hch Hpairs.
  destruct (feed_defined before p m) as (rs1 & p1 & m1 & Hbefore & Hlen).
  destruct (feed_status_and_pairs p1 m1 kind ch pairs
              Hkind Hch Hpairs)
    as (rs2 & p' & m' & Hafter & Hmap & _ & Htype & Hchannel & Hcount & _).
  exists rs1, rs2, p', m'.
  rewrite (feed_app _ _ _ _ _ _ _ _ _ _ Hbefore Hafter).
  repeat split; assumption.
Qed.

Lemma status_byte_resynchronizes_witness :
  exists results_before results_after p' m',
    feed (midi_parser_init (mk_parser 0 0 0 0 0 0)) blank_message
      ([MIDI_MESSAGE_NOTE_ON; 60]
         ++ N.lor MIDI_MESSAGE_PITCH_BEND 1 :: data_pairs [(0, 64)]) =
      Some (results_before ++ results_after, p', m') /\
    length results_before = 2%nat /\
    map report (completed results_after) =
      [(MIDI_MESSAGE_PITCH_BEND, MIDI_MESSAGE_PITCH_BEND, 1, [8192])].
Proof.
  destruct (status_byte_resynchronizes (midi_parser_init (mk_parser 0 0 0 0 0 0)) blank_message
              [MIDI_MESSAGE_NOTE_ON; 60] MIDI_MESSAGE_PITCH_BEND 1 [(0, 64)])
    as (rb & ra & p' & m' & Hrun & Hlen & Hmap & _).
  - cbn. tauto.
  - discriminate.
  - repeat constructor; discriminate.
  - exists rb, ra, p', m'. repeat split; assumption.
Defined.

(** X15. A freshly initialized parser ignores every data byte until the
    first status byte: each call returns None and the parser and the
    message object stay as they were. *)
Theorem fresh_parser_ignores_data_bytes
    (p0 : midi_parser_t) (m : midi_message_t) (data : list N) :
  Forall (fun d => d <= 127) data ->
  feed (midi_parser_init p0) m data =
    Some (map (fun _ => (MIDI_MESSAGE_NONE, m)) data,
          midi_parser_init p0, m).
Proof.
  intros Hdata.
  apply (feed_ignored _ _ (fun d => d <= 127)); [|exact Hdata].
  intros d Hd.
  rewrite (decode_unexpected_data_byte (midi_parser_init p0) m d Hd eq_refl).
  reflexivity.
Qed.

Lemma fresh_parser_ignores_data_bytes_witness :
  feed (midi_parser_init (mk_parser 0 0 0 0 0 0)) blank_message [60; 100] =
    Some ([(MIDI_MESSAGE_NONE, blank_message);
           (MIDI_MESSAGE_NONE, blank_message)],
          (midi_parser_init (mk_parser 0 0 0 0 0 0)), blank_message).
Proof.
  apply (fresh_parser_ignores_data_bytes (mk_parser 0 0 0 0 0 0)
           blank_message [60; 100]).
  repeat constructor; discriminate.
Defined.

(** ** The active channel and NULL pointers *)

(** X16. Decoding never sets the active channel: in every state
    reachable from an initialized parser by calls of [midi_parse_byte]
    it is still [MIDI_CHANNEL_NONE]. *)
Theorem reachable_active_channel (p : midi_parser_t) :
  reachable p -> p_active_channel p = MIDI_CHANNEL_NONE.
Proof.
  intros Hreach.
  induction Hreach as [p0 | p p' byte kind m m' _ IH Hrun].
  - reflexivity.
  - pose proof (decode_ignores_active_channel p m byte MIDI_CHANNEL_NONE)
      as Hsame.
    rewrite Hrun in Hsame.
    destruct (decode (set_p_active_channel MIDI_CHANNEL_NONE p) byte m)
      as [[[k2 p2] m2]|]; [|contradiction].
    destruct Hsame as (_ & _ & _ & Hkept & _).
    rewrite Hkept. exact IH.
Qed.

Lemma reachable_active_channel_witness :
  p_active_channel
    (mk_parser MIDI_MESSAGE_NOTE_ON 3 MIDI_CHANNEL_NONE 0 0 0) =
    MIDI_CHANNEL_NONE.
Proof.
  apply reachable_active_channel.
  apply (reachable_step (midi_parser_init (mk_parser 0 0 0 0 0 0)) _ (N.lor MIDI_MESSAGE_NOTE_ON 3)
           MIDI_MESSAGE_NONE blank_message blank_message);
    [apply reachable_init | reflexivity].
Defined.

(** X17. A call of [midi_parse_byte] with a NULL parser or a NULL message
    returns None and leaves the other object untouched; with two valid
    pointers it is the call on the two objects, which is always defined;
    and [midi_parser_init] on NULL does nothing. *)
Theorem null_pointers_are_harmless
    (parser : option midi_parser_t) (byte : N)
    (message : option midi_message_t) :
  exists kind parser' message',
    midi_parse_byte_ptr parser byte message =
      Some (kind, parser', message') /\
    (parser = None \/ message = None ->
     kind = MIDI_MESSAGE_NONE /\ parser' = parser /\ message' = message) /\
    (forall p m,
        parser = Some p -> message = Some m ->
        exists p' m',
          decode p byte m = Some (kind, p', m') /\
          parser' = Some p' /\ message' = Some m') /\
    midi_parser_init_ptr None = None /\
    (forall p, midi_parser_init_ptr (Some p) = Some (midi_parser_init p)).
Proof.
  destruct parser as [p|], message as [m|]; cbn [midi_parse_byte_ptr].
  - destruct (decode_defined p byte m) as (kind & p' & m' & Hrun).
    unfold decode in Hrun. rewrite Hrun.
    exists kind, (Some p'), (Some m').
    split; [reflexivity|]. split; [|split; [|split; [reflexivity|]]].
    + intros [H|H]; discriminate H.
    + intros q mq Hq Hmq. injection Hq as <-. injection Hmq as <-.
      exists p', m'. repeat split. exact Hrun.
    + intros q. reflexivity.
  - do 3 eexists. split; [reflexivity|].
    repeat split; try reflexivity. intros q mq _ H. discriminate H.
  - do 3 eexists. split; [reflexivity|].
    repeat split; try reflexivity. intros q mq H. discriminate H.
  - do 3 eexists. split; [reflexivity|].
    repeat split; try reflexivity. intros q mq H. discriminate H.
Qed.

Lemma null_pointers_are_harmless_witness :
  midi_parse_byte_ptr None MIDI_MESSAGE_NOTE_ON (Some blank_message) =
    Some (MIDI_MESSAGE_NONE, None, Some blank_message).
Proof.
  destruct (null_pointers_are_harmless None MIDI_MESSAGE_NOTE_ON
              (Some blank_message))
    as (kind & parser' & message' & Hrun & Hnull & _).
  destruct (Hnull (or_introl eq_refl)) as (-> & -> & ->).
  exact Hrun.
Defined.

(** ** The dispatch on the high bit *)

(** The high bit of an eight-bit byte is clear exactly for 0 to 127. *)
Lemma high_bit_clear (byte : N) :
  byte <= 255 -> (N.land byte MIDI_MSB_MASK =? 0) = (byte <=? 127).
Proof.
  intros H.
  pose (ok := fun b =>
          Bool.eqb (N.land b MIDI_MSB_MASK =? 0) (b <=? 127)).
  assert (Hok : ok byte = true).
  { apply (forall_below ok 256); [vm_compute; reflexivity|].
    change (N.of_nat 256) with 256. lia. }
  apply Bool.eqb_prop in Hok. exact Hok.
Qed.

(** X18. For an eight-bit byte [midi_parse_byte] takes the data path
    exactly when the byte is 0 to 127 and the status path otherwise, so
    the range check of [parse_data_byte], which ignores a byte above 127
    and changes nothing, is never reached through [midi_parse_byte]. *)
Theorem dispatch_on_the_high_bit
    (p : midi_parser_t) (m : midi_message_t) (byte : N) :
  byte <= 255 ->
  decode p byte m =
    (if byte <=? 127
     then parse_data_byte byte p m
     else parse_status_byte byte p m) /\
  (127 < byte ->
   parse_data_byte byte p m = Some (MIDI_MESSAGE_NONE, p, m)).
Proof.
  intros Hbyte. split.
  - unfold decode, midi_parse_byte. rewrite (high_bit_clear byte Hbyte).
    destruct (byte <=? 127); reflexivity.
  - intros Hhigh. unfold parse_data_byte.
    apply N.ltb_lt in Hhigh. change 127 with MIDI_MAX_DATA_BYTE in Hhigh.
    rewrite Hhigh. reflexivity.
Qed.

Lemma dispatch_on_the_high_bit_witness :
  decode (mk_parser MIDI_MESSAGE_NOTE_ON 0 MIDI_CHANNEL_NONE 60 0 1) 0x80
    blank_message =
    parse_status_byte 0x80
      (mk_parser MIDI_MESSAGE_NOTE_ON 0 MIDI_CHANNEL_NONE 60 0 1)
      blank_message /\
  parse_data_byte 0x80
    (mk_parser MIDI_MESSAGE_NOTE_ON 0 MIDI_CHANNEL_NONE 60 0 1)
    blank_message =
    Some (MIDI_MESSAGE_NONE,
          mk_parser MIDI_MESSAGE_NOTE_ON 0 MIDI_CHANNEL_NONE 60 0 1,
          blank_message).
Proof.
  destruct (dispatch_on_the_high_bit
              (mk_parser MIDI_MESSAGE_NOTE_ON 0 MIDI_CHANNEL_NONE 60 0 1)
              blank_message 0x80) as [Hdispatch Hcheck].
  - discriminate.
  - split; [exact Hdispatch | apply Hcheck; reflexivity].
Defined.
